(** * tx.py: gas funding and token sweep between two wallets

    A shallow embedding of [src/tx.py].  The script funds a Holder
    wallet ([address1]) with native currency from a Funder wallet
    ([address2]), sweeps the Holder's ERC-20 balance back to the Funder,
    and repeats until interrupted.

    The file has four parts:
    - the fragments of the Python runtime the script relies on
      (exceptions, integer true division, fixed-point formatting,
      [str.rstrip], [str.endswith]);
    - the script itself, written in a small monad over the remote node,
      with every effect recorded in a trace;
    - the properties of the script, for every node;
    - runs of the script against a small simulated node, one for each
      property that has premises. *)

From Stdlib Require Import ZArith String Ascii List Bool Lia.
From Stdlib Require Import DecimalString DecimalN DecimalPos.
Import ListNotations.

Local Open Scope string_scope.
Local Open Scope Z_scope.

(** ** Exceptions and results *)

(** The exception classes the script distinguishes in its [except]
    clauses.  [ValueError] and [ContractLogicError] stand for the class
    or any subclass of it; [OtherException] is any other subclass of
    [Exception], with its [type(e).__name__]. *)
Inductive exn_class : Type :=
| ValueError
| ContractLogicError
| OtherException (type_name : string).

Record exn : Type := mk_exn { exn_type : exn_class; exn_str : string }.

(** What evaluating a Python expression ends in: a value, an exception
    derived from [Exception], or [SystemExit] (raised by [sys.exit],
    derived from [BaseException] only). *)
Inductive outcome (A : Type) : Type :=
| Done (a : A)
| Raised (e : exn)
| Exited (code : Z).
Arguments Done {A} a.
Arguments Raised {A} e.
Arguments Exited {A} code.

Definition outcome_bind {A B : Type} (o : outcome A) (k : A -> outcome B) : outcome B :=
  match o with
  | Done a => k a
  | Raised e => Raised e
  | Exited c => Exited c
  end.

(** ** Strings *)

Definition nl : string := String (ascii_of_nat 10) "".
Definition cr : string := String (ascii_of_nat 13) "".

(** [c in s] for a one-character [c]. *)
Fixpoint str_contains (c : ascii) (s : string) : bool :=
  match s with
  | EmptyString => false
  | String d s' => Ascii.eqb c d || str_contains c s'
  end.

(** [s.rstrip(chars)]: drops the longest suffix made of characters of [chars]. *)
Fixpoint rstrip (chars : string) (s : string) : string :=
  match s with
  | EmptyString => EmptyString
  | String c s' =>
      match rstrip chars s' with
      | EmptyString => if str_contains c chars then EmptyString else String c EmptyString
      | r => String c r
      end
  end.

(** [s.endswith(suffix)]. *)
Definition endswith (s suffix : string) : bool :=
  (String.length suffix <=? String.length s)%nat
  && String.eqb (substring (String.length s - String.length suffix) (String.length suffix) s) suffix.

(** [c * n] for a string [c]. *)
Fixpoint str_repeat (c : string) (n : nat) : string :=
  match n with
  | O => ""
  | S n' => c ++ str_repeat c n'
  end.

(** [str(n)] for an [int]. *)
Definition str_of_nonneg (n : Z) : string := NilEmpty.string_of_uint (N.to_uint (Z.to_N n)).

Definition str_of_int (n : Z) : string :=
  if n <? 0 then "-" ++ str_of_nonneg (- n) else str_of_nonneg n.

(** The lowest [width] decimal digits of [n], most significant first. *)
Fixpoint low_digits (width : nat) (n : Z) : string :=
  match width with
  | O => ""
  | S w => low_digits w (n / 10) ++ String (ascii_of_nat (48 + Z.to_nat (n mod 10))) ""
  end.


(** [f"{s:^width}"]: centred, the extra blank going to the right. *)
Definition center (s : string) (width : nat) : string :=
  let total := (width - String.length s)%nat in
  let left := Nat.div total 2 in
  str_repeat " " left ++ s ++ str_repeat " " (total - left).

(** ** Numbers *)

(** [num / den] rounded to the nearest integer, ties to even
    (for [0 <= num] and [0 < den]). *)
Definition div_half_even (num den : Z) : Z :=
  let q := num / den in
  let r := num mod den in
  if 2 * r <? den then q
  else if den <? 2 * r then q + 1
  else if Z.even q then q else q + 1.

(** A finite binary64 value: [(-1)^neg * mant * 2^exp], [0 <= mant <= 2^53]. *)
Record float : Type := mk_float { f_neg : bool; f_mant : Z; f_exp : Z }.

(** A [decimal.Decimal]: [(-1)^neg * coeff * 10^exp]. *)
Record decimal : Type := mk_decimal { d_neg : bool; d_coeff : Z; d_exp : Z }.

Definition OverflowError : exn :=
  mk_exn (OtherException "OverflowError") "integer division result too large for a float".
Definition ZeroDivisionError : exn :=
  mk_exn (OtherException "ZeroDivisionError") "division by zero".

(** The binary exponent at which [p / q] (both positive) has a 53-bit
    significand, not below the exponent of the subnormals. *)
Definition float_exponent (p q : Z) : Z :=
  let e0 := Z.log2 p - Z.log2 q - 52 in
  let e1 := if p * 2 ^ Z.max 0 (- e0) <? 2 ^ 52 * (q * 2 ^ Z.max 0 e0) then e0 - 1 else e0 in
  Z.max e1 (-1074).

(** [a / b] on [int]s: CPython rounds the exact quotient once, to the
    nearest binary64, ties to even. *)
Definition true_divide (a b : Z) : outcome float :=
  if b =? 0 then Raised ZeroDivisionError
  else
    let neg := xorb (a <? 0) (b <? 0) in
    if a =? 0 then Done (mk_float neg 0 0)
    else
      let p := Z.abs a in
      let q := Z.abs b in
      let e := float_exponent p q in
      let m := div_half_even (p * 2 ^ Z.max 0 (- e)) (q * 2 ^ Z.max 0 e) in
      if 2 ^ 1024 <=? m * 2 ^ Z.max 0 e then Raised OverflowError
      else Done (mk_float neg m e).

(** A non-negative count [n] of units of [10^-p] in fixed-point notation:
    the integer part, and [p] fractional digits after a point when [p > 0]. *)
Definition fixed_point (n : Z) (p : nat) : string :=
  let unit := 10 ^ Z.of_nat p in
  str_of_nonneg (n / unit)
  ++ match p with
     | O => ""
     | _ => "." ++ low_digits p (n mod unit)
     end.

Definition sign_prefix (neg : bool) : string := if neg then "-" else "".

(** [f"{x:.{p}f}"] for a float: the exact binary value rounded to [p]
    places, ties to even. *)
Definition format_float_f (x : float) (p : nat) : string :=
  let n := div_half_even (f_mant x * 10 ^ Z.of_nat p * 2 ^ Z.max 0 (f_exp x))
                         (2 ^ Z.max 0 (- f_exp x)) in
  sign_prefix (f_neg x) ++ fixed_point n p.

(** [f"{d:.{p}f}"] for a Decimal: rounded to [p] places with the default
    context's ROUND_HALF_EVEN. *)
Definition format_decimal_f (d : decimal) (p : nat) : string :=
  let s := d_exp d + Z.of_nat p in
  let n := div_half_even (d_coeff d * 10 ^ Z.max 0 s) (10 ^ Z.max 0 (- s)) in
  sign_prefix (d_neg d) ++ fixed_point n p.

(** The script's pictograms, byte for byte as its source file has them. *)
Definition glyph_stop : string := "üõë".
Definition glyph_bullet : string := "‚Ä¢".
Definition glyph_check : string := "‚úì".
Definition glyph_cross : string := "‚ùå".
Definition glyph_rocket : string := "üöÄ".
Definition glyph_cyclone : string := "üåÄ".
Definition glyph_repeat : string := "üîÑ".
Definition glyph_wave : string := "üëã".

(** ** The chain, as the script sees it *)

Definition address : Type := string.

(** The bytes the node returns for a transaction hash, kept by their
    hexadecimal rendering [h.hex()]. *)
Record HexBytes : Type := mk_HexBytes { hex : string }.

Inductive abi_value : Type :=
| abi_address (a : address)
| abi_uint256 (n : Z).

(** [contract.functions.name(args)] on the contract at [call_contract]. *)
Record contract_call : Type := mk_call {
  call_contract : address;
  call_function : string;
  call_args : list abi_value
}.

(** The transaction dictionary handed to [sign_transaction]; [tx_data] is
    [None] for a dictionary without a ['data'] key, a plain transfer. *)
Record transaction : Type := mk_tx {
  tx_to : address;
  tx_value : Z;
  tx_gas : Z;
  tx_gasPrice : Z;
  tx_nonce : Z;
  tx_chainId : Z;
  tx_data : option contract_call
}.

(** The dictionary given to [build_transaction]. *)
Record tx_params : Type := mk_params {
  p_chainId : Z;
  p_gas : Z;
  p_gasPrice : Z;
  p_nonce : Z
}.

(** Modelled from the spec: [build_transaction] is the web3 library's.  The
    spec has it "build a contract-call transaction invoking the token's
    transfer function" with the gas limit, gas price, nonce and chain id it
    is given: the call goes to the contract, carries no native value, and
    every field the caller gave is kept. *)
Definition build_transaction (fn : contract_call) (params : tx_params) : transaction :=
  {| tx_to := call_contract fn;
     tx_value := 0;
     tx_gas := p_gas params;
     tx_gasPrice := p_gasPrice params;
     tx_nonce := p_nonce params;
     tx_chainId := p_chainId params;
     tx_data := Some fn |}.

(** The serialised signed payload, kept symbolic: which dictionary was
    signed, and with which key. *)
Inductive raw_tx : Type :=
| Serialized (tx : transaction) (private_key : string).

Record SignedTransaction : Type := mk_signed { raw_transaction : raw_tx }.

(** The blocking operations of the script: requests to the node, and sleeps. *)
Inductive io : Type -> Type :=
| eth_gas_price : io Z
| eth_get_balance (a : address) : io Z
| eth_get_transaction_count (a : address) : io Z
| eth_send_raw_transaction (raw : raw_tx) : io HexBytes
| call_balanceOf (token owner : address) : io Z
| call_symbol (token : address) : io string
| call_decimals (token : address) : io Z
| time_sleep (seconds : Z) : io unit.

(** How a blocking operation ends: it returns, it raises, or CTRL+C
    arrives while it is in flight. *)
Inductive answer (X : Type) : Type :=
| Returns (x : X)
| Throws (e : exn)
| Sigint.
Arguments Returns {X} x.
Arguments Throws {X} e.
Arguments Sigint {X}.

(** What an observer of the process sees, in order. *)
Inductive event : Type :=
| Io (X : Type) (op : io X) (r : answer X)
| Out (text : string)
| Sign (tx : transaction) (private_key : string).
Arguments Io {X} op r.

Definition is_broadcast (ev : event) : bool :=
  match ev with
  | Io op _ => match op with eth_send_raw_transaction _ => true | _ => false end
  | _ => false
  end.

Definition is_signature (ev : event) : bool :=
  match ev with
  | Sign _ _ => true
  | _ => false
  end.

Definition is_sigint (ev : event) : bool :=
  match ev with
  | Io _ Sigint => true
  | _ => false
  end.

(** Whether CTRL+C arrived during a run. *)
Definition interrupted (t : list event) : bool := existsb is_sigint t.

(** The signatures and broadcasts among the events of a run. *)
Definition sends (t : list event) : list event :=
  filter (fun ev => is_signature ev || is_broadcast ev) t.

(** Modelled from the spec: [w3.from_wei] is the web3 library's.  The spec
    has the amount "converted from smallest unit to whole-unit using the
    chain's standard 18-decimal scaling".  The library divides Decimals
    at 999 digits of precision, which is exact on its domain, and refuses
    an amount outside of uint256 with a ValueError. *)
Definition from_wei (number : Z) : outcome decimal :=
  if (number <? 0) || (2 ^ 256 - 1 <? number)
  then Raised (mk_exn ValueError "value must be between 1 and 2**256 - 1")
  else Done (mk_decimal false number (-18)).

(** ** Formatting (tx.py, lines 64-78) *)

Definition format_token_amount (amount : Z) (decimals : nat) : outcome string :=
  let divisor := 10 ^ 18 in
  outcome_bind (true_divide amount divisor) (fun quotient =>
  let formatted := format_float_f quotient decimals in
  let formatted :=
    if str_contains "." formatted
    then if endswith formatted ".00000000"
         then rstrip "." (rstrip "0" formatted)
         else formatted
    else formatted in
  Done formatted).

Definition format_eth_amount (amount_wei : Z) (decimals : nat) : outcome string :=
  outcome_bind (from_wei amount_wei) (fun eth_amount =>
  let formatted := format_decimal_f eth_amount decimals in
  let formatted :=
    if str_contains "." formatted
    then if endswith formatted ".00000000"
         then rstrip "." (rstrip "0" formatted)
         else formatted
    else formatted in
  Done formatted).

Definition estimate_gas_cost : Z := 150000.

(** The two keys, tx.py lines 12-13. *)
Definition private_key1 : string :=
  "0x5b8b9789e738c4563a3c330ff174296d0626ea72ebdcd0ae0d51406aec3bb62d".
Definition private_key2 : string :=
  "0x7a903b69badb20d026fc0c1f72f8b634c06b47f2a9d6b62c0fcf83aa969fd4fa".

(** ** A simulated node, for concrete runs

    Addresses are the keys themselves.  The node quotes one gas price,
    holds one native balance for the Funder, and answers the successive
    reads of the Holder's token balance from a list whose last entry
    stays. *)
Record sim : Type := mk_sim {
  sim_price : answer Z;
  sim_funder_eth : Z;
  sim_holder_tokens : list Z;
  sim_sent : Z
}.

Definition sim_from_key (key : string) : string := key.
Definition sim_checksum (text : string) : address := text.

Definition sim_respond (X : Type) (op : io X) (w : sim) : answer X * sim :=
  match op in io T return answer T * sim with
  | eth_gas_price => (sim_price w, w)
  | eth_get_balance a =>
      (Returns (if String.eqb a private_key2 then sim_funder_eth w else 0), w)
  | eth_get_transaction_count _ => (Returns (sim_sent w), w)
  | eth_send_raw_transaction _ =>
      (Returns (mk_HexBytes ("ab" ++ str_of_int (sim_sent w))),
       mk_sim (sim_price w) (sim_funder_eth w) (sim_holder_tokens w) (sim_sent w + 1))
  | call_balanceOf _ owner =>
      if String.eqb owner private_key1 then
        match sim_holder_tokens w with
        | [] => (Returns 0, w)
        | [b] => (Returns b, w)
        | b :: rest => (Returns b, mk_sim (sim_price w) (sim_funder_eth w) rest (sim_sent w))
        end
      else (Returns 0, w)
  | call_symbol _ => (Returns "TKN", w)
  | call_decimals _ => (Returns 18, w)
  | time_sleep _ => (Returns tt, w)
  end.


(** ** The script *)

Section Script.

(** The library's key-to-address derivation and checksum encoding, and the
    remote node: its state, and how it answers each blocking operation. *)
Variable from_key_address : string -> string.
Variable to_checksum_address : string -> address.
Variable World : Type.
Variable respond : forall X : Type, io X -> World -> answer X * World.

Definition address1 : address := to_checksum_address (from_key_address private_key1).
Definition address2 : address := to_checksum_address (from_key_address private_key2).
Definition TOKEN_ADDRESS : address :=
  to_checksum_address "0xef4461891dfb3ac8572ccf7c794664a8dd927945".

(** The process: the node it talks to, and the module-level flag [running]. *)
Record state : Type := mk_state { node : World; running : bool }.

(** A computation: from a state to its outcome, the state it leaves, and
    the events it produced. *)
Definition M (A : Type) : Type := state -> outcome A * state * list event.

Definition ret {A : Type} (a : A) : M A := fun st => (Done a, st, []).

(** The events [t] happened before the run [r]. *)
Definition prepend {A : Type} (t : list event) (r : outcome A * state * list event)
  : outcome A * state * list event :=
  let '(o, st, t') := r in (o, st, (t ++ t')%list).

Definition bind {A B : Type} (m : M A) (k : A -> M B) : M B := fun st =>
  match m st with
  | (Done a, st1, t1) => prepend t1 (k a st1)
  | (Raised e, st1, t1) => (Raised e, st1, t1)
  | (Exited c, st1, t1) => (Exited c, st1, t1)
  end.

Notation "x <- m ;; k" := (bind m (fun x => k))
  (at level 61, m at next level, right associativity).
Notation "m ;; k" := (bind m (fun _ => k))
  (at level 61, right associativity).

Definition raise {A : Type} (e : exn) : M A := fun st => (Raised e, st, []).

Definition lift {A : Type} (o : outcome A) : M A := fun st => (o, st, []).

(** [print(text, end=end_)]. *)
Definition print_end (text end_ : string) : M unit := fun st => (Done tt, st, [Out (text ++ end_)]).
Definition print (text : string) : M unit := print_end text nl.

(** tx.py, lines 56-60: the handler the module installs for SIGINT. *)
Definition signal_handler {A : Type} : M A :=
  print (nl ++ nl ++ glyph_stop ++ " Deteksi CTRL+C. Menghentikan program...") ;;
  (fun st => (Done tt, mk_state (node st) false, [])) ;;
  (fun st => (Exited 0, st, [])).

(** A blocking operation, answered by the node (or cut by CTRL+C).  The
    process spends its time in these operations, and this is the one
    place where the model lets CTRL+C arrive; a signal that lands between
    two of them is not modelled. *)
Definition perform {X : Type} (op : io X) : M X := fun st =>
  let '(r, w) := respond X op (node st) in
  let st1 := mk_state w (running st) in
  match r with
  | Returns x => (Done x, st1, [Io op r])
  | Throws e => (Raised e, st1, [Io op r])
  | Sigint => prepend [Io op r] (signal_handler st1)
  end.

(** [w3.eth.account.sign_transaction(tx, key)]: local, and recorded.  The
    library refuses a dictionary it cannot serialise, such as one with a
    negative gas price or nonce; this is not modelled, so the statements
    below that assert a signature take the quoted gas price and the
    transaction count to be non-negative, as a node returns them. *)
Definition sign_transaction (tx : transaction) (private_key : string) : M SignedTransaction :=
  fun st => (Done (mk_signed (Serialized tx private_key)), st, [Sign tx private_key]).

(** [try: body except Exception as e: handler(e)]; [SystemExit] is not an
    [Exception] and passes through. *)
Definition try_except {A : Type} (body : M A) (handler : exn -> M A) : M A := fun st =>
  match body st with
  | (Raised e, st1, t1) => prepend t1 (handler e st1)
  | r => r
  end.

Definition get_running : M bool := fun st => (Done (running st), st, []).

(** tx.py, lines 80-90. *)
Definition get_token_balance (a : address) : M Z := perform (call_balanceOf TOKEN_ADDRESS a).
Definition get_token_symbol : M string := perform (call_symbol TOKEN_ADDRESS).
Definition get_token_decimals : M Z := perform (call_decimals TOKEN_ADDRESS).

(** tx.py, lines 95-121. *)
Definition send_gas_fee : M (HexBytes * Z) :=
  let gas_cost := estimate_gas_cost in
  gas_price <- perform eth_gas_price ;;
  let required_eth := gas_cost * gas_price in
  sender_balance <- perform (eth_get_balance address2) ;;
  (if sender_balance <? required_eth then
     let needed := required_eth - sender_balance in
     deposit <- lift (format_eth_amount needed 8) ;;
     total <- lift (format_eth_amount required_eth 8) ;;
     current <- lift (format_eth_amount sender_balance 8) ;;
     raise (mk_exn ValueError
              (nl ++ "Saldo ETH tidak cukup. Deposit minimal " ++ deposit
               ++ " ETH ke address:" ++ nl ++ address2 ++ nl
               ++ "Total dibutuhkan: " ++ total ++ " ETH" ++ nl
               ++ "Saldo saat ini: " ++ current ++ " ETH"))
   else ret tt) ;;
  nonce <- perform (eth_get_transaction_count address2) ;;
  let tx := {| tx_to := address1;
               tx_value := required_eth;
               tx_gas := 21000;
               tx_gasPrice := gas_price;
               tx_nonce := nonce;
               tx_chainId := 10;
               tx_data := None |} in
  signed_tx <- sign_transaction tx private_key2 ;;
  tx_hash <- perform (eth_send_raw_transaction (raw_transaction signed_tx)) ;;
  ret (tx_hash, required_eth).

(** tx.py, lines 123-141. *)
Definition transfer_all_tokens : M HexBytes :=
  let token_contract := TOKEN_ADDRESS in
  balance <- get_token_balance address1 ;;
  (if balance =? 0
   then raise (mk_exn ValueError "Saldo token kosong, tidak ada yang bisa ditransfer")
   else ret tt) ;;
  let fn := mk_call token_contract "transfer" [abi_address address2; abi_uint256 balance] in
  gas_price <- perform eth_gas_price ;;
  nonce <- perform (eth_get_transaction_count address1) ;;
  let tx := build_transaction fn
              {| p_chainId := 10;
                 p_gas := estimate_gas_cost;
                 p_gasPrice := gas_price;
                 p_nonce := nonce |} in
  signed_tx <- sign_transaction tx private_key1 ;;
  tx_hash <- perform (eth_send_raw_transaction (raw_transaction signed_tx)) ;;
  ret tx_hash.

Definition banner : string := str_repeat "=" 50.

(** tx.py, lines 143-160. *)
Definition print_balance_info : M unit :=
  token_symbol <- get_token_symbol ;;
  token_balance1 <- get_token_balance address1 ;;
  token_balance2 <- get_token_balance address2 ;;
  eth_balance1 <- perform (eth_get_balance address1) ;;
  eth_balance2 <- perform (eth_get_balance address2) ;;
  print (nl ++ banner) ;;
  print (center "TOKEN BALANCE" 50) ;;
  print banner ;;
  print ("Token Symbol: " ++ token_symbol) ;;
  print ("Address1 [" ++ address1 ++ "]:") ;;
  token1 <- lift (format_token_amount token_balance1 8) ;;
  print ("  " ++ glyph_bullet ++ " Token: " ++ token1 ++ " " ++ token_symbol) ;;
  eth1 <- lift (format_eth_amount eth_balance1 8) ;;
  print ("  " ++ glyph_bullet ++ " ETH:   " ++ eth1 ++ " ETH") ;;
  print ("Address2 [" ++ address2 ++ "]:") ;;
  token2 <- lift (format_token_amount token_balance2 8) ;;
  print ("  " ++ glyph_bullet ++ " Token: " ++ token2 ++ " " ++ token_symbol) ;;
  eth2 <- lift (format_eth_amount eth_balance2 8) ;;
  print ("  " ++ glyph_bullet ++ " ETH:   " ++ eth2 ++ " ETH") ;;
  print (banner ++ nl).

(** The [try] block of [execute_transfer_cycle], tx.py lines 165-192. *)
Definition transfer_cycle_body : M unit :=
  print (nl ++ banner) ;;
  print (center "MEMULAI AUTOMATIC TRANSFER" 50) ;;
  print banner ;;
  print_balance_info ;;
  holder_balance <- get_token_balance address1 ;;
  if 0 <? holder_balance then
    print "[1/3] Mengirim gas fee dari private_key2 ke private_key1..." ;;
    sent <- send_gas_fee ;;
    let '(gas_tx_hash, eth_sent) := sent in
    print ("  " ++ glyph_check ++ " Gas fee sent: " ++ hex gas_tx_hash) ;;
    eth_text <- lift (format_eth_amount eth_sent 8) ;;
    print ("  " ++ glyph_check ++ " ETH dikirim: " ++ eth_text ++ " ETH") ;;
    print (nl ++ "[2/3] Menunggu 1 detik untuk konfirmasi...") ;;
    perform (time_sleep 1) ;;
    print (nl ++ "[3/3] Mentransfer semua token dari private_key1 ke private_key2...") ;;
    token_tx_hash <- transfer_all_tokens ;;
    print ("  " ++ glyph_check ++ " Token transfer sent: " ++ hex token_tx_hash) ;;
    print (nl ++ "Menunggu 1 detik untuk konfirmasi transfer token...") ;;
    perform (time_sleep 1) ;;
    print (nl ++ banner) ;;
    print (center "HASIL AKHIR" 50) ;;
    print banner ;;
    print_balance_info
  else
    print (nl ++ "Tidak ada token yang bisa ditransfer (saldo = 0)").

(** The [except] clauses, tx.py lines 194-199, tried in order. *)
Definition transfer_cycle_handler (e : exn) : M unit :=
  match exn_type e with
  | ValueError => print (nl ++ glyph_cross ++ " ERROR: " ++ exn_str e)
  | ContractLogicError => print (nl ++ glyph_cross ++ " ERROR KONTRAK: " ++ exn_str e)
  | OtherException type_name =>
      print (nl ++ glyph_cross ++ " ERROR TIDAK DIKENAL: " ++ type_name ++ ": " ++ exn_str e)
  end.

(** tx.py, lines 162-199. *)
Definition execute_transfer_cycle : M unit :=
  try_except transfer_cycle_body transfer_cycle_handler.

(** [range(start, stop, step)], for a step other than zero. *)
Definition range (start stop step : Z) : list Z :=
  let count :=
    if 0 <? step then (stop - start + step - 1) / step
    else (start - stop - step - 1) / (- step) in
  map (fun k => start + Z.of_nat k * step) (seq 0 (Z.to_nat count)).

(** [for i in items: body(i)], where the body returns [true] to [break]. *)
Fixpoint for_each (items : list Z) (body : Z -> M bool) : M unit :=
  match items with
  | [] => ret tt
  | i :: rest => stop <- body i ;; if stop then ret tt else for_each rest body
  end.

(** The [while running:] loop of tx.py, lines 205-218, cut after [fuel]
    iterations: [Some n] when the loop condition was found false after
    [n] cycles, [None] when the iterations allowed were used up. *)
Fixpoint main_loop (fuel : nat) (cycle_count : Z) : M (option Z) :=
  match fuel with
  | O => ret None
  | S fuel' =>
      go <- get_running ;;
      if go then
        let cycle_count := cycle_count + 1 in
        print (nl ++ glyph_cyclone ++ " Memulai Siklus #" ++ str_of_int cycle_count) ;;
        execute_transfer_cycle ;;
        still <- get_running ;;
        (if still then
           print (nl ++ glyph_repeat ++ " Menunggu 1 detik sebelum siklus berikutnya...") ;;
           for_each (range 1 0 (-1)) (fun i =>
             now_running <- get_running ;;
             if negb now_running then ret true
             else
               print_end ("  Siklus berikutnya dalam " ++ str_of_int i ++ " detik...") cr ;;
               perform (time_sleep 1) ;;
               ret false)
         else ret tt) ;;
        main_loop fuel' cycle_count
      else ret (Some cycle_count)
  end.

(** tx.py, lines 201-220. *)
Definition main (fuel : nat) : M (option Z) :=
  print (nl ++ glyph_rocket ++ " Program Transfer Token Otomatis Dimulai") ;;
  print ("Tekan CTRL+C untuk menghentikan program" ++ nl) ;;
  cycles <- main_loop fuel 0 ;;
  match cycles with
  | Some n =>
      print (nl ++ "Program dihentikan dengan aman. Selamat tinggal! " ++ glyph_wave) ;;
      ret (Some n)
  | None => ret None
  end.

(** ** Notions the statements use *)

(** A computation that neither signs nor broadcasts. *)
Definition silent {A : Type} (m : M A) : Prop := forall st, sends (snd (m st)) = [].

(** The three lines every cycle opens with. *)
Definition cycle_heading : list event :=
  [Out ((nl ++ banner) ++ nl);
   Out (center "MEMULAI AUTOMATIC TRANSFER" 50 ++ nl);
   Out (banner ++ nl)].

(** What the cycle does once [transfer_all_tokens] has returned. *)
Definition after_sweep (token_tx_hash : HexBytes) : M unit :=
  print ("  " ++ glyph_check ++ " Token transfer sent: " ++ hex token_tx_hash) ;;
  print (nl ++ "Menunggu 1 detik untuk konfirmasi transfer token...") ;;
  perform (time_sleep 1) ;;
  print (nl ++ banner) ;;
  print (center "HASIL AKHIR" 50) ;;
  print banner ;;
  print_balance_info.

(** The events of a cycle between its first report and the call of
    [transfer_all_tokens], around the events [t3] of [send_gas_fee]. *)
Definition funding_events (b : Z) (t3 : list event) (h : HexBytes) (eth_text : string)
  : list event :=
  ([Io (call_balanceOf TOKEN_ADDRESS address1) (Returns b);
    Out ("[1/3] Mengirim gas fee dari private_key2 ke private_key1..." ++ nl)]
   ++ t3
   ++ [Out (("  " ++ glyph_check ++ " Gas fee sent: " ++ hex h) ++ nl);
       Out (("  " ++ glyph_check ++ " ETH dikirim: " ++ eth_text ++ " ETH") ++ nl);
       Out ((nl ++ "[2/3] Menunggu 1 detik untuk konfirmasi...") ++ nl);
       Io (time_sleep 1) (Returns tt);
       Out ((nl ++ "[3/3] Mentransfer semua token dari private_key1 ke private_key2...")
            ++ nl)])%list.

(** A run ends well when it either was not interrupted and left [running]
    set, or was interrupted and ends in [sys.exit(0)] with [running]
    cleared. *)
Definition well_ended {A : Type} (r : outcome A * state * list event) : Prop :=
  match r with
  | (Exited code, st, t) => code = 0 /\ running st = false /\ interrupted t = true
  | (_, st, t) => running st = true /\ interrupted t = false
  end.

Definition sound {A : Type} (m : M A) : Prop :=
  forall st, running st = true -> well_ended (m st).

Definition no_exit {A : Type} (o : outcome A) : Prop :=
  match o with
  | Exited _ => False
  | _ => True
  end.

(** What the cycle prints after the cross mark for an exception it
    caught, by the [except] clause that matched. *)
Definition error_label (e : exn) : string :=
  match exn_type e with
  | ValueError => " ERROR: " ++ exn_str e
  | ContractLogicError => " ERROR KONTRAK: " ++ exn_str e
  | OtherException type_name => " ERROR TIDAK DIKENAL: " ++ type_name ++ ": " ++ exn_str e
  end.


(** Every event of every run of [m] satisfies [P]. *)
Definition always {A : Type} (P : event -> Prop) (m : M A) : Prop :=
  forall st, Forall P (snd (m st)).

(** The dictionary [send_gas_fee] builds: a plain transfer to the Holder
    of 150000 times its own gas price. *)
Definition funding_shape (tx : transaction) : Prop :=
  tx_to tx = address1
  /\ tx_value tx = 150000 * tx_gasPrice tx
  /\ tx_gas tx = 21000
  /\ tx_chainId tx = 10
  /\ tx_data tx = None.

(** The transaction [transfer_all_tokens] builds: a call of the token's
    [transfer] that moves a non-zero amount to the Funder. *)
Definition sweep_shape (tx : transaction) : Prop :=
  tx_to tx = TOKEN_ADDRESS
  /\ tx_value tx = 0
  /\ tx_gas tx = 150000
  /\ tx_chainId tx = 10
  /\ exists amount,
       amount <> 0
       /\ tx_data tx
          = Some (mk_call TOKEN_ADDRESS "transfer"
                    [abi_address address2; abi_uint256 amount]).

Definition authorised_send (tx : transaction) (private_key : string) : Prop :=
  (private_key = private_key2 /\ funding_shape tx)
  \/ (private_key = private_key1 /\ sweep_shape tx).

(** An event that is not a signature or a broadcast, or is one of a
    funding transfer under the Funder's key or of a sweep under the
    Holder's key. *)
Definition authorised (ev : event) : Prop :=
  match ev with
  | Sign tx private_key => authorised_send tx private_key
  | Io op _ =>
      match op with
      | eth_send_raw_transaction (Serialized tx private_key) =>
          authorised_send tx private_key
      | _ => True
      end
  | Out _ => True
  end.

(** An event that is not a request, or is one of the requests the script
    is written to make: about its two wallets and its one token, and
    sleeps of one second. *)
Definition expected_request (ev : event) : Prop :=
  match ev with
  | Io op _ =>
      match op with
      | eth_gas_price => True
      | eth_get_balance a => a = address1 \/ a = address2
      | eth_get_transaction_count a => a = address1 \/ a = address2
      | eth_send_raw_transaction _ => True
      | call_balanceOf token owner =>
          token = TOKEN_ADDRESS /\ (owner = address1 \/ owner = address2)
      | call_symbol token => token = TOKEN_ADDRESS
      | call_decimals _ => False
      | time_sleep seconds => seconds = 1
      end
  | _ => True
  end.

(** The signatures and broadcasts of every run of [m], taken together,
    satisfy [Q]. *)
Definition sends_within {A : Type} (Q : list event -> Prop) (m : M A) : Prop :=
  forall st, Q (sends (snd (m st))).

(** One signature, then the broadcast of what was signed, answered [r]. *)
Definition signed_and_broadcast (tx : transaction) (private_key : string)
    (r : answer HexBytes) : list event :=
  [Sign tx private_key; Io (eth_send_raw_transaction (Serialized tx private_key)) r].

(** The line [signal_handler] prints. *)
Definition stop_line : string :=
  nl ++ nl ++ glyph_stop ++ " Deteksi CTRL+C. Menghentikan program...".

(** A trace whose one interruption is its last request, followed only by
    the handler's line. *)
Definition ends_at_interrupt (t : list event) : Prop :=
  exists (X : Type) (op : io X) (t' : list event),
    t = (t' ++ [Io op Sigint; Out (stop_line ++ nl)])%list
    /\ interrupted t' = false.

(** A run either was never interrupted and left [running] set, or ends
    in [sys.exit(0)] with [running] cleared, right after the handler's
    line. *)
Definition halted {A : Type} (r : outcome A * state * list event) : Prop :=
  match r with
  | (Exited code, st, t) => code = 0 /\ running st = false /\ ends_at_interrupt t
  | (_, st, t) => running st = true /\ interrupted t = false
  end.

Definition halting {A : Type} (m : M A) : Prop :=
  forall st, running st = true -> halted (m st).

(** How the program can end: out of iterations with [running] still set,
    by an exception of the sleep between two cycles, or by [sys.exit(0)];
    never by finding [running] cleared. *)
Definition program_end (r : outcome (option Z) * state * list event) : Prop :=
  match r with
  | (Done None, st, _) => running st = true
  | (Done (Some _), _, _) => False
  | (Raised e, _, t) =>
      exists t',
        t = (t' ++ [Out (("  Siklus berikutnya dalam " ++ str_of_int 1 ++ " detik...") ++ cr);
                    Io (time_sleep 1) (Throws e)])%list
  | (Exited code, _, _) => code = 0
  end.




(** ** Facts

    *** Running a computation, one step at a time *)

Lemma prepend_nil {A : Type} (r : outcome A * state * list event) : prepend [] r = r.
Proof. destruct r as [[o st] t]. reflexivity. Qed.

Lemma prepend_prepend {A : Type} (t1 t2 : list event) (r : outcome A * state * list event) :
  prepend t1 (prepend t2 r) = prepend (t1 ++ t2) r.
Proof. destruct r as [[o st] t]. unfold prepend. now rewrite app_assoc. Qed.

Lemma bind_Done {A B : Type} (m : M A) (k : A -> M B) st a st1 t1 :
  m st = (Done a, st1, t1) -> bind m k st = prepend t1 (k a st1).
Proof. intros H. unfold bind. now rewrite H. Qed.

Lemma bind_Raised {A B : Type} (m : M A) (k : A -> M B) st e st1 t1 :
  m st = (Raised e, st1, t1) -> bind m k st = (Raised e, st1, t1).
Proof. intros H. unfold bind. now rewrite H. Qed.

Lemma bind_Exited {A B : Type} (m : M A) (k : A -> M B) st c st1 t1 :
  m st = (Exited c, st1, t1) -> bind m k st = (Exited c, st1, t1).
Proof. intros H. unfold bind. now rewrite H. Qed.

Lemma bind_ret {A B : Type} (a : A) (k : A -> M B) st : bind (ret a) k st = k a st.
Proof. unfold bind, ret. apply prepend_nil. Qed.

Lemma bind_lift_Done {A B : Type} (a : A) (k : A -> M B) st : bind (lift (Done a)) k st = k a st.
Proof. unfold bind, lift. apply prepend_nil. Qed.

Lemma bind_print {B : Type} (text : string) (k : unit -> M B) st :
  bind (print text) k st = prepend [Out (text ++ nl)] (k tt st).
Proof. reflexivity. Qed.

Lemma perform_Returns {X : Type} (op : io X) st x w :
  respond X op (node st) = (Returns x, w) ->
  perform op st = (Done x, mk_state w (running st), [Io op (Returns x)]).
Proof. intros H. unfold perform. now rewrite H. Qed.

Lemma perform_Throws {X : Type} (op : io X) st e w :
  respond X op (node st) = (Throws e, w) ->
  perform op st = (Raised e, mk_state w (running st), [Io op (Throws e)]).
Proof. intros H. unfold perform. now rewrite H. Qed.

Lemma perform_Sigint {X : Type} (op : io X) st w :
  respond X op (node st) = (Sigint, w) ->
  perform op st
  = (Exited 0, mk_state w false,
     [Io op Sigint;
      Out ((nl ++ nl ++ glyph_stop ++ " Deteksi CTRL+C. Menghentikan program...") ++ nl)]).
Proof. intros H. unfold perform. now rewrite H. Qed.

Lemma bind_perform {X B : Type} (op : io X) (k : X -> M B) st x w :
  respond X op (node st) = (Returns x, w) ->
  bind (perform op) k st = prepend [Io op (Returns x)] (k x (mk_state w (running st))).
Proof. intros H. apply bind_Done, perform_Returns, H. Qed.

Lemma bind_sign {B : Type} tx key (k : SignedTransaction -> M B) st :
  bind (sign_transaction tx key) k st
  = prepend [Sign tx key] (k (mk_signed (Serialized tx key)) st).
Proof. reflexivity. Qed.

(** *** Strings *)

Lemma length_app (a b : string) :
  String.length (a ++ b) = (String.length a + String.length b)%nat.
Proof. induction a as [|c a IH]; simpl; [reflexivity | now rewrite IH]. Qed.

Lemma app_assoc_str (a b c : string) : (a ++ b) ++ c = a ++ b ++ c.
Proof. induction a as [|x a IH]; simpl; [reflexivity | now rewrite IH]. Qed.

Lemma app_empty_r (a : string) : a ++ "" = a.
Proof. induction a as [|x a IH]; simpl; [reflexivity | now rewrite IH]. Qed.

Lemma str_contains_app (c : ascii) (a b : string) :
  str_contains c (a ++ b) = str_contains c a || str_contains c b.
Proof.
  induction a as [|x a IH]; simpl; [reflexivity |].
  rewrite IH. now rewrite orb_assoc.
Qed.

Lemma substring_whole (s : string) : substring 0 (String.length s) s = s.
Proof. induction s as [|c s IH]; simpl; [reflexivity | now rewrite IH]. Qed.

Lemma substring_skip (a s : string) (m : nat) :
  substring (String.length a) m (a ++ s) = substring 0 m s.
Proof. induction a as [|c a IH]; simpl; [reflexivity | exact IH]. Qed.

Lemma substring_split (s : string) (n : nat) :
  (n <= String.length s)%nat ->
  s = substring 0 n s ++ substring n (String.length s - n) s.
Proof.
  revert n. induction s as [|c s IH]; intros n Hn; simpl in Hn.
  - assert (n = 0%nat) by lia. subst. reflexivity.
  - destruct n as [|n].
    + simpl. now rewrite substring_whole.
    + simpl. f_equal. apply IH. lia.
Qed.

(** [endswith] holds exactly of the strings that are something followed
    by the suffix. *)
Lemma endswith_app (a suffix : string) : endswith (a ++ suffix) suffix = true.
Proof.
  unfold endswith. rewrite length_app.
  replace (String.length a + String.length suffix - String.length suffix)%nat
    with (String.length a) by lia.
  rewrite substring_skip, substring_whole, String.eqb_refl.
  rewrite andb_true_r. apply Nat.leb_le. lia.
Qed.

Lemma endswith_inv (s suffix : string) :
  endswith s suffix = true -> exists a, s = a ++ suffix.
Proof.
  unfold endswith. intros H. apply andb_true_iff in H. destruct H as [Hlen Heq].
  apply Nat.leb_le in Hlen. apply String.eqb_eq in Heq.
  exists (substring 0 (String.length s - String.length suffix) s).
  pose proof (substring_split s (String.length s - String.length suffix)) as Hs.
  replace (String.length s - (String.length s - String.length suffix))%nat
    with (String.length suffix) in Hs by lia.
  rewrite Heq in Hs. apply Hs. lia.
Qed.

(** Two ways of cutting a string at a character that occurs in neither
    tail are the same cut. *)
Lemma last_occurrence_unique (c : ascii) (a b a' b' : string) :
  str_contains c b = false -> str_contains c b' = false ->
  a ++ String c b = a' ++ String c b' -> a = a' /\ b = b'.
Proof.
  intros Hb Hb'. revert a'.
  induction a as [|x a IH]; intros [|y a'] H; simpl in H.
  - now inversion H.
  - inversion H; subst. rewrite str_contains_app in Hb. simpl in Hb.
    rewrite Ascii.eqb_refl in Hb. simpl in Hb. rewrite orb_true_r in Hb. discriminate.
  - inversion H; subst. rewrite str_contains_app in Hb'. simpl in Hb'.
    rewrite Ascii.eqb_refl in Hb'. simpl in Hb'. rewrite orb_true_r in Hb'. discriminate.
  - inversion H; subst. destruct (IH a' H2) as [-> ->]. now split.
Qed.

Lemma rstrip_app_kept (chars a b : string) :
  rstrip chars b <> "" -> rstrip chars (a ++ b) = a ++ rstrip chars b.
Proof.
  intros Hb. induction a as [|c a IH]; simpl; [reflexivity |].
  rewrite IH. destruct (a ++ rstrip chars b) eqn:E; [| reflexivity].
  destruct a; simpl in E; [contradiction | discriminate].
Qed.

Lemma rstrip_app_dropped (chars a b : string) :
  rstrip chars b = "" -> rstrip chars (a ++ b) = rstrip chars a.
Proof.
  intros Hb. induction a as [|c a IH]; simpl; [exact Hb | now rewrite IH].
Qed.

Lemma rstrip_absent (c : ascii) (s : string) :
  str_contains c s = false -> rstrip (String c "") s = s.
Proof.
  induction s as [|x s IH]; simpl; [reflexivity |].
  intros H. apply orb_false_iff in H. destruct H as [Hx Hs].
  rewrite (IH Hs). destruct s; [| reflexivity].
  rewrite Ascii.eqb_sym in Hx. now rewrite Hx.
Qed.

(** What the script's [rstrip('0').rstrip('.')] leaves of a rendering
    that ends in a point and eight zeros: the part before the point. *)
Lemma rstrip_zero_fraction (whole : string) :
  str_contains "." whole = false ->
  rstrip "." (rstrip "0" (whole ++ ".00000000")) = whole.
Proof.
  intros Hw.
  rewrite rstrip_app_kept by (vm_compute; discriminate).
  replace (rstrip "0" ".00000000") with "." by (vm_compute; reflexivity).
  rewrite rstrip_app_dropped by (vm_compute; reflexivity).
  now apply rstrip_absent.
Qed.

Lemma uint_no_point (d : Decimal.uint) :
  str_contains "." (NilEmpty.string_of_uint d) = false.
Proof. induction d; simpl; auto. Qed.

Lemma str_of_nonneg_no_point (n : Z) : str_contains "." (str_of_nonneg n) = false.
Proof. apply uint_no_point. Qed.

Lemma digit_not_point (k : nat) :
  (k < 10)%nat -> Ascii.eqb "." (ascii_of_nat (48 + k)) = false.
Proof.
  intros H. do 10 (destruct k as [|k]; [reflexivity |]). lia.
Qed.

Lemma low_digits_no_point (w : nat) (n : Z) : str_contains "." (low_digits w n) = false.
Proof.
  revert n. induction w as [|w IH]; intros n; [reflexivity |].
  cbn [low_digits]. rewrite str_contains_app, IH. cbn [str_contains orb].
  rewrite digit_not_point; [reflexivity |].
  pose proof (Z.mod_pos_bound n 10). lia.
Qed.

Lemma low_digits_length (w : nat) (n : Z) : String.length (low_digits w n) = w.
Proof.
  revert n. induction w as [|w IH]; intros n; [reflexivity |].
  cbn [low_digits]. rewrite length_app, IH. cbn [String.length]. lia.
Qed.

Lemma sign_prefix_no_point (neg : bool) : str_contains "." (sign_prefix neg) = false.
Proof. now destruct neg. Qed.

(** A rendering with a positive number of places is a sign and digits, a
    point, and exactly that many digits. *)
Lemma rendering_shape (neg : bool) (n : Z) (p : nat) :
  p <> 0%nat ->
  exists whole frac,
    sign_prefix neg ++ fixed_point n p = whole ++ String "." frac
    /\ str_contains "." whole = false
    /\ str_contains "." frac = false
    /\ String.length frac = p.
Proof.
  intros Hp.
  exists (sign_prefix neg ++ str_of_nonneg (n / 10 ^ Z.of_nat p)),
         (low_digits p (n mod 10 ^ Z.of_nat p)).
  repeat split.
  - unfold fixed_point. destruct p; [contradiction |]. now rewrite app_assoc_str.
  - rewrite str_contains_app, sign_prefix_no_point, str_of_nonneg_no_point. reflexivity.
  - apply low_digits_no_point.
  - apply low_digits_length.
Qed.

Lemma rendering_no_places (neg : bool) (n : Z) :
  str_contains "." (sign_prefix neg ++ fixed_point n 0) = false.
Proof.
  unfold fixed_point.
  now rewrite !str_contains_app, sign_prefix_no_point, str_of_nonneg_no_point.
Qed.

(** The test [endswith('.00000000')] can only succeed on eight places. *)
Lemma endswith_zero_fraction (whole frac : string) :
  str_contains "." frac = false ->
  endswith (whole ++ String "." frac) ".00000000" = true ->
  frac = "00000000".
Proof.
  intros Hf H. apply endswith_inv in H. destruct H as [a Ha].
  apply last_occurrence_unique in Ha; [exact (proj2 Ha) | assumption | reflexivity].
Qed.

(** The two lines that strip the rendering (tx.py, lines 68-69 and 76-77),
    on a rendering of the shape above. *)
Lemma strip_rule (whole frac : string) :
  str_contains "." whole = false ->
  str_contains "." frac = false ->
  let formatted := whole ++ String "." frac in
  (if str_contains "." formatted
   then if endswith formatted ".00000000"
        then rstrip "." (rstrip "0" formatted)
        else formatted
   else formatted)
  = if endswith formatted ".00000000" then whole else formatted.
Proof.
  intros Hw Hf formatted.
  assert (Hdot : str_contains "." formatted = true).
  { unfold formatted. rewrite str_contains_app. simpl. now rewrite orb_true_r. }
  rewrite Hdot. destruct (endswith formatted ".00000000") eqn:E; [| reflexivity].
  unfold formatted in *. apply endswith_zero_fraction in E; [| assumption].
  subst frac. now apply rstrip_zero_fraction.
Qed.


(** *** Numbers *)

Lemma div_half_even_bounds (n d : Z) :
  0 <= n -> 0 < d -> n / d <= div_half_even n d <= n / d + 1.
Proof.
  intros Hn Hd. unfold div_half_even.
  destruct (2 * (n mod d) <? d); [lia |].
  destruct (d <? 2 * (n mod d)); [lia |].
  destruct (Z.even (n / d)); lia.
Qed.

Lemma float_exponent_bounds (p q : Z) :
  Z.log2 p - Z.log2 q - 53 <= float_exponent p q
  /\ (float_exponent p q <= Z.log2 p - Z.log2 q - 52 \/ float_exponent p q = -1074).
Proof.
  unfold float_exponent.
  destruct (_ <? _); lia.
Qed.

Lemma true_divide_uint256 (a : Z) :
  0 <= a < 2 ^ 256 -> exists q, true_divide a (10 ^ 18) = Done q.
Proof.
  intros [Ha0 Ha]. unfold true_divide.
  replace (10 ^ 18 =? 0) with false by reflexivity.
  destruct (a =? 0) eqn:Ea; [eexists; reflexivity |].
  apply Z.eqb_neq in Ea.
  rewrite (Z.abs_eq a) by lia. rewrite (Z.abs_eq (10 ^ 18)) by (vm_compute; discriminate).
  pose proof (float_exponent_bounds a (10 ^ 18)) as [Hlo Hhi].
  replace (Z.log2 (10 ^ 18)) with 59 in * by reflexivity.
  assert (Hl : 0 <= Z.log2 a < 256).
  { split; [apply Z.log2_nonneg | apply Z.log2_lt_pow2; lia]. }
  set (e := float_exponent a (10 ^ 18)) in *.
  assert (He : -112 <= e <= 144) by lia.
  set (num := a * 2 ^ Z.max 0 (- e)).
  set (den := 10 ^ 18 * 2 ^ Z.max 0 e).
  assert (Hp1 : 0 < 2 ^ Z.max 0 (- e) <= 2 ^ 112).
  { split; [apply Z.pow_pos_nonneg; lia | apply Z.pow_le_mono_r; lia]. }
  assert (Hp2 : 0 < 2 ^ Z.max 0 e <= 2 ^ 144).
  { split; [apply Z.pow_pos_nonneg; lia | apply Z.pow_le_mono_r; lia]. }
  assert (Hnum : 0 <= num <= 2 ^ 256 * 2 ^ 112) by (unfold num; nia).
  assert (Hden : 1 <= den) by (unfold den; nia).
  pose proof (div_half_even_bounds num den ltac:(lia) ltac:(lia)) as Hm.
  assert (Hq : num / den <= num).
  { apply Z.div_le_upper_bound; nia. }
  destruct (2 ^ 1024 <=? div_half_even num den * 2 ^ Z.max 0 e) eqn:E; [| eexists; reflexivity].
  apply Z.leb_le in E. exfalso.
  assert (div_half_even num den * 2 ^ Z.max 0 e <= (2 ^ 256 * 2 ^ 112 + 1) * 2 ^ 144) by nia.
  assert ((2 ^ 256 * 2 ^ 112 + 1) * 2 ^ 144 < 2 ^ 1024) by (vm_compute; reflexivity).
  lia.
Qed.

(** *** The formatters *)

Lemma div_half_even_unique (n d k : Z) :
  0 < d -> (2 * k - 1) * d < 2 * n < (2 * k + 1) * d -> div_half_even n d = k.
Proof.
  intros Hd [Hlo Hhi]. unfold div_half_even.
  pose proof (Z.div_mod n d ltac:(lia)) as E.
  pose proof (Z.mod_pos_bound n d Hd) as B.
  set (q := n / d) in *. set (r := n mod d) in *.
  assert (q = k \/ q = k - 1) as [-> | ->] by nia.
  - destruct (2 * r <? d) eqn:C1; [reflexivity |].
    apply Z.ltb_ge in C1. nia.
  - destruct (2 * r <? d) eqn:C1; [apply Z.ltb_lt in C1; nia |].
    destruct (d <? 2 * r) eqn:C2; [lia |].
    apply Z.ltb_ge in C1, C2. nia.
Qed.

Lemma div_half_even_error (n d : Z) :
  0 < d -> - d <= 2 * (div_half_even n d * d - n) <= d.
Proof.
  intros Hd. unfold div_half_even.
  pose proof (Z.div_mod n d ltac:(lia)) as E.
  pose proof (Z.mod_pos_bound n d Hd) as B.
  set (q := n / d) in *. set (r := n mod d) in *.
  destruct (2 * r <? d) eqn:C1; [apply Z.ltb_lt in C1; nia |].
  apply Z.ltb_ge in C1.
  destruct (d <? 2 * r) eqn:C2; [apply Z.ltb_lt in C2; nia |].
  apply Z.ltb_ge in C2. destruct (Z.even q); nia.
Qed.

(** A quotient above the subnormal range is scaled to a significand of
    at least [2^52]. *)
Lemma float_exponent_normal (p q : Z) :
  0 < p -> 0 < q -> -1074 < float_exponent p q ->
  2 ^ 52 * (q * 2 ^ Z.max 0 (float_exponent p q))
  <= p * 2 ^ Z.max 0 (- float_exponent p q).
Proof.
  intros Hp Hq. unfold float_exponent.
  pose proof (Z.log2_spec p Hp) as [Lp _].
  pose proof (Z.log2_spec q Hq) as [_ Uq].
  pose proof (Z.log2_nonneg p) as Np. pose proof (Z.log2_nonneg q) as Nq.
  set (lp := Z.log2 p) in *. set (lq := Z.log2 q) in *.
  set (e0 := lp - lq - 52).
  destruct (p * 2 ^ Z.max 0 (- e0) <? 2 ^ 52 * (q * 2 ^ Z.max 0 e0)) eqn:C.
  - intros He. rewrite (Z.max_l (e0 - 1) (-1074)) by lia.
    (* p / (q 2^e0) > 2^51, so one more bit reaches 2^52 *)
    assert (K : 2 ^ 51 * (q * 2 ^ Z.max 0 e0) <= p * 2 ^ Z.max 0 (- e0)).
    { replace (Z.succ lq) with (lq + 1) in Uq by lia.
      destruct (Z.le_gt_cases 0 e0) as [H0 | H0].
      - rewrite (Z.max_r 0 e0), (Z.max_l 0 (- e0)), Z.pow_0_r by lia.
        assert (2 ^ lp = 2 ^ (lq + 1) * (2 ^ e0 * 2 ^ 51)) as E.
        { rewrite <- !Z.pow_add_r by lia. f_equal. lia. }
        assert (0 < 2 ^ e0 * 2 ^ 51) by (apply Z.mul_pos_pos; apply Z.pow_pos_nonneg; lia).
        assert (q * (2 ^ e0 * 2 ^ 51) <= 2 ^ (lq + 1) * (2 ^ e0 * 2 ^ 51))
          by (apply Z.mul_le_mono_nonneg_r; lia).
        lia.
      - rewrite (Z.max_l 0 e0), (Z.max_r 0 (- e0)), Z.pow_0_r by lia.
        assert (2 ^ lp * 2 ^ (- e0) = 2 ^ (lq + 1) * 2 ^ 51) as E.
        { rewrite <- !Z.pow_add_r by lia. f_equal. lia. }
        assert (0 < 2 ^ (- e0)) by (apply Z.pow_pos_nonneg; lia).
        assert (2 ^ lp * 2 ^ (- e0) <= p * 2 ^ (- e0))
          by (apply Z.mul_le_mono_nonneg_r; lia).
        assert (q * 2 ^ 51 <= 2 ^ (lq + 1) * 2 ^ 51)
          by (apply Z.mul_le_mono_nonneg_r; lia).
        lia. }
    (* rescaling by one bit *)
    assert (R : 2 ^ Z.max 0 (- (e0 - 1)) * 2 ^ Z.max 0 e0
                = 2 * (2 ^ Z.max 0 (- e0) * 2 ^ Z.max 0 (e0 - 1))).
    { destruct (Z.le_gt_cases 1 e0) as [H0 | H0].
      - rewrite (Z.max_l 0 (- (e0 - 1))), (Z.max_r 0 e0), (Z.max_l 0 (- e0)),
          (Z.max_r 0 (e0 - 1)) by lia.
        replace e0 with (1 + (e0 - 1)) at 1 by lia.
        rewrite Z.pow_add_r by lia. lia.
      - rewrite (Z.max_r 0 (- (e0 - 1))), (Z.max_l 0 e0), (Z.max_r 0 (- e0)),
          (Z.max_l 0 (e0 - 1)) by lia.
        replace (- (e0 - 1)) with (1 + - e0) by lia.
        rewrite Z.pow_add_r by lia. lia. }
    assert (P0 : 0 < 2 ^ Z.max 0 e0) by (apply Z.pow_pos_nonneg; lia).
    set (X0 := 2 ^ Z.max 0 e0) in *. set (Y0 := 2 ^ Z.max 0 (- e0)) in *.
    set (X1 := 2 ^ Z.max 0 (e0 - 1)) in *. set (Y1 := 2 ^ Z.max 0 (- (e0 - 1))) in *.
    assert (P1 : 0 < X1) by (apply Z.pow_pos_nonneg; lia).
    replace (2 ^ 52) with (2 * 2 ^ 51) by reflexivity.
    apply (Z.mul_le_mono_pos_r _ _ X0 P0).
    assert (K' : 2 ^ 51 * (q * X0) * (2 * X1) <= p * Y0 * (2 * X1))
      by (apply Z.mul_le_mono_nonneg_r; lia).
    replace (p * Y1 * X0) with (p * (Y1 * X0)) by ring. rewrite R.
    replace (2 * 2 ^ 51 * (q * X1) * X0) with (2 ^ 51 * (q * X0) * (2 * X1)) by ring.
    replace (p * (2 * (Y0 * X1))) with (p * Y0 * (2 * X1)) by ring.
    exact K'.
  - intros He. rewrite (Z.max_l e0 (-1074)) by lia. apply Z.ltb_ge in C. exact C.
Qed.

(** The double nearest [a / 10**18], rendered with eight places, shows
    the same count of [10^-8] units as the exact quotient whenever [a] is
    farther from a rounding tie than the double's relative error. *)
Lemma float_units_exact (a : Z) (q : float) :
  0 < a ->
  a < 2 ^ 52 * Z.abs (10 ^ 10 - 2 * (a mod 10 ^ 10)) ->
  true_divide a (10 ^ 18) = Done q ->
  f_neg q = false
  /\ div_half_even (f_mant q * 10 ^ Z.of_nat 8 * 2 ^ Z.max 0 (f_exp q))
                   (2 ^ Z.max 0 (- f_exp q))
     = div_half_even a (10 ^ 10).
Proof.
  intros Ha Hmargin. unfold true_divide.
  replace (10 ^ 18 =? 0) with false by reflexivity.
  replace (a =? 0) with false by (symmetry; apply Z.eqb_neq; lia).
  rewrite (Z.abs_eq a) by lia. rewrite (Z.abs_eq (10 ^ 18)) by (vm_compute; discriminate).
  replace (a <? 0) with false by (symmetry; apply Z.ltb_ge; lia).
  replace (10 ^ 18 <? 0) with false by reflexivity.
  pose proof (float_exponent_bounds a (10 ^ 18)) as [Hlo _].
  replace (Z.log2 (10 ^ 18)) with 59 in Hlo by reflexivity.
  pose proof (Z.log2_nonneg a) as Hl.
  pose proof (float_exponent_normal a (10 ^ 18) Ha ltac:(reflexivity) ltac:(lia)) as Hnorm.
  set (e := float_exponent a (10 ^ 18)) in *.
  set (P := 2 ^ Z.max 0 e) in *. set (M := 2 ^ Z.max 0 (- e)) in *.
  assert (HP : 0 < P) by (apply Z.pow_pos_nonneg; lia).
  assert (HM : 0 < M) by (apply Z.pow_pos_nonneg; lia).
  pose proof (div_half_even_error (a * M) (10 ^ 18 * P) ltac:(lia)) as Herr.
  set (m := div_half_even (a * M) (10 ^ 18 * P)) in *.
  destruct (2 ^ 1024 <=? m * P); [discriminate |].
  intros E. inversion E; subst q; clear E. cbn [f_neg f_mant f_exp].
  split; [reflexivity |]. fold P M.
  replace (10 ^ Z.of_nat 8) with (10 ^ 8) by reflexivity.
  pose proof (Z.div_mod a (10 ^ 10) ltac:(lia)) as Ediv.
  pose proof (Z.mod_pos_bound a (10 ^ 10) ltac:(lia)) as Hr.
  set (k := a / 10 ^ 10) in *. set (r := a mod 10 ^ 10) in *.
  replace (10 ^ 18) with (10 ^ 10 * 10 ^ 8) in * by reflexivity.
  set (U := 10 ^ 10) in *.
  assert (HU : 0 < U) by reflexivity.
  assert (EaM : a * M = U * (k * M) + r * M) by (rewrite Ediv; ring).
  assert (Hm : 2 * (m * (U * 10 ^ 8 * P)) = U * (2 * (m * 10 ^ 8 * P))) by ring.
  assert (HrM : 0 <= r * M < U * M)
    by (split; [apply Z.mul_nonneg_nonneg | apply Z.mul_lt_mono_pos_r]; lia).
  destruct (Z.lt_trichotomy (2 * r) U) as [Hlow | [Htie | Hhigh]].
  - (* below the tie: both round down to [k] *)
    rewrite Z.abs_eq in Hmargin by lia.
    assert (Hma : a * M < 2 ^ 52 * (U - 2 * r) * M)
      by (apply Z.mul_lt_mono_pos_r; lia).
    rewrite (div_half_even_unique a U k); [| lia | lia].
    apply div_half_even_unique; [lia |].
    split; apply (Z.mul_lt_mono_pos_l U); lia.
  - rewrite <- Htie in Hmargin. rewrite Z.sub_diag in Hmargin. cbn in Hmargin. lia.
  - (* above the tie: both round up to [k + 1] *)
    rewrite Z.abs_neq in Hmargin by lia.
    assert (Hma : a * M < 2 ^ 52 * (2 * r - U) * M)
      by (apply Z.mul_lt_mono_pos_r; lia).
    rewrite (div_half_even_unique a U (k + 1)); [| lia | lia].
    apply div_half_even_unique; [lia |].
    split; apply (Z.mul_lt_mono_pos_l U); lia.
Qed.

(** C9, as the code has it.  [format_token_amount] renders the double
    nearest to [a / 10**18], [format_eth_amount] the exact quotient, and
    both then apply the same stripping rule.  For every raw amount
    [a >= 0] that is farther from a rounding tie of the eighth decimal
    than the double's relative error [2^-53] (which covers every multiple
    of [10^10] below [2^52 * 10^10]), the two return the same string at
    the default precision. *)
Theorem formatters_agree_off_ties (a : Z) :
  0 <= a ->
  a < 2 ^ 52 * Z.abs (10 ^ 10 - 2 * (a mod 10 ^ 10)) ->
  format_token_amount a 8 = format_eth_amount a 8.
Proof.
  intros Ha Hmargin.
  destruct (Z.eq_dec a 0) as [-> | Hnz]; [vm_compute; reflexivity |].
  pose proof (Z.mod_pos_bound a (10 ^ 10) ltac:(lia)) as Hr.
  assert (Hsmall : a < 2 ^ 52 * 10 ^ 10) by lia.
  assert (Hrange : 0 <= a < 2 ^ 256).
  { split; [lia |]. apply Z.lt_trans with (2 ^ 52 * 10 ^ 10); [lia | reflexivity]. }
  destruct (true_divide_uint256 a Hrange) as [q Hq].
  destruct (float_units_exact a q ltac:(lia) Hmargin Hq) as [Hneg Hunits].
  unfold format_token_amount, format_eth_amount, from_wei.
  rewrite Hq.
  replace (a <? 0) with false by (symmetry; apply Z.ltb_ge; lia).
  replace (2 ^ 256 - 1 <? a) with false by (symmetry; apply Z.ltb_ge; lia).
  cbn [orb outcome_bind]. cbv zeta.
  assert (E : format_float_f q 8 = format_decimal_f (mk_decimal false a (-18)) 8).
  { unfold format_float_f, format_decimal_f. cbn [d_neg d_coeff d_exp].
    rewrite Hneg, Hunits.
    replace (-18 + Z.of_nat 8) with (-10) by reflexivity.
    replace (Z.max 0 (-10)) with 0 by reflexivity.
    replace (Z.max 0 (- -10)) with 10 by reflexivity.
    now rewrite Z.pow_0_r, Z.mul_1_r. }
  now rewrite E.
Qed.

Lemma from_wei_uint256 (a : Z) :
  0 <= a < 2 ^ 256 -> from_wei a = Done (mk_decimal false a (-18)).
Proof.
  intros H. unfold from_wei.
  replace (a <? 0) with false by (symmetry; apply Z.ltb_ge; lia).
  replace (2 ^ 256 - 1 <? a) with false by (symmetry; apply Z.ltb_ge; lia).
  reflexivity.
Qed.

Lemma format_eth_amount_uint256 (a : Z) (p : nat) :
  0 <= a < 2 ^ 256 -> exists text, format_eth_amount a p = Done text.
Proof.
  intros H. unfold format_eth_amount. rewrite from_wei_uint256 by assumption.
  cbn [outcome_bind]. eexists. reflexivity.
Qed.

(** [format_eth_amount] fails only the way [from_wei] does. *)
Lemma format_eth_amount_cases (a : Z) (p : nat) :
  (exists text, format_eth_amount a p = Done text)
  \/ (exists e, format_eth_amount a p = Raised e /\ exn_type e = ValueError).
Proof.
  unfold format_eth_amount, from_wei.
  destruct ((a <? 0) || (2 ^ 256 - 1 <? a)); cbn [outcome_bind].
  - right. eexists. split; reflexivity.
  - left. eexists. reflexivity.
Qed.

(** *** The two sends *)

Lemma bind_raise {A B : Type} (e : exn) (k : A -> M B) st :
  bind (raise e) k st = (Raised e, st, []).
Proof. reflexivity. Qed.

Lemma bind_lift_Raised {A B : Type} (e : exn) (k : A -> M B) st :
  bind (lift (Raised e)) k st = (Raised e, st, []).
Proof. reflexivity. Qed.

(** C2. When the balance [transfer_all_tokens] reads for the Holder is
    exactly 0, it raises the ValueError "empty balance, nothing to
    transfer" right after that read: the read is the only event, so
    nothing is signed and nothing is broadcast. *)
Theorem transfer_all_tokens_empty st w :
  respond Z (call_balanceOf TOKEN_ADDRESS address1) (node st) = (Returns 0, w) ->
  transfer_all_tokens st
  = (Raised (mk_exn ValueError "Saldo token kosong, tidak ada yang bisa ditransfer"),
     mk_state w (running st),
     [Io (call_balanceOf TOKEN_ADDRESS address1) (Returns 0)])
  /\ sends (snd (transfer_all_tokens st)) = [].
Proof.
  intros H.
  assert (E : transfer_all_tokens st
              = (Raised (mk_exn ValueError
                           "Saldo token kosong, tidak ada yang bisa ditransfer"),
                 mk_state w (running st),
                 [Io (call_balanceOf TOKEN_ADDRESS address1) (Returns 0)])).
  { unfold transfer_all_tokens, get_token_balance. cbv zeta.
    rewrite (bind_perform _ _ _ _ _ H).
    change (0 =? 0) with true. cbv iota.
    rewrite bind_raise. reflexivity. }
  split; [exact E |]. rewrite E. reflexivity.
Qed.

(** C1. Whatever gas price [g] the node quotes, when the Funder's balance
    [b] is strictly below [150000 * g], [send_gas_fee] raises a ValueError
    after its two reads: nothing is signed, nothing is broadcast.  For
    amounts in the uint256 range the message carries the formatted
    shortfall [150000 * g - b], the formatted total and the formatted
    balance. *)
Theorem send_gas_fee_insufficient st g b w1 w2 :
  respond Z eth_gas_price (node st) = (Returns g, w1) ->
  respond Z (eth_get_balance address2) w1 = (Returns b, w2) ->
  b < 150000 * g ->
  exists e,
    send_gas_fee st
    = (Raised e, mk_state w2 (running st),
       [Io eth_gas_price (Returns g); Io (eth_get_balance address2) (Returns b)])
    /\ sends (snd (send_gas_fee st)) = []
    /\ exn_type e = ValueError
    /\ (0 <= b -> 150000 * g < 2 ^ 256 ->
        exists deposit total current,
          format_eth_amount (150000 * g - b) 8 = Done deposit
          /\ format_eth_amount (150000 * g) 8 = Done total
          /\ format_eth_amount b 8 = Done current
          /\ exn_str e
             = nl ++ "Saldo ETH tidak cukup. Deposit minimal " ++ deposit
               ++ " ETH ke address:" ++ nl ++ address2 ++ nl
               ++ "Total dibutuhkan: " ++ total ++ " ETH" ++ nl
               ++ "Saldo saat ini: " ++ current ++ " ETH").
Proof.
  intros Hg Hb Hlt.
  enough (exists e,
    send_gas_fee st
    = (Raised e, mk_state w2 (running st),
       [Io eth_gas_price (Returns g); Io (eth_get_balance address2) (Returns b)])
    /\ exn_type e = ValueError
    /\ (0 <= b -> 150000 * g < 2 ^ 256 ->
        exists deposit total current,
          format_eth_amount (150000 * g - b) 8 = Done deposit
          /\ format_eth_amount (150000 * g) 8 = Done total
          /\ format_eth_amount b 8 = Done current
          /\ exn_str e
             = nl ++ "Saldo ETH tidak cukup. Deposit minimal " ++ deposit
               ++ " ETH ke address:" ++ nl ++ address2 ++ nl
               ++ "Total dibutuhkan: " ++ total ++ " ETH" ++ nl
               ++ "Saldo saat ini: " ++ current ++ " ETH"))
    as (e & E & Hty & Hmsg).
  { exists e. rewrite E. repeat split; assumption || reflexivity. }
  unfold send_gas_fee, estimate_gas_cost, bind, perform. cbv zeta.
  rewrite Hg. cbn [node running prepend app].
  rewrite Hb. cbn [node running prepend app].
  replace (b <? 150000 * g) with true by (symmetry; apply Z.ltb_lt; exact Hlt).
  unfold lift.
  destruct (format_eth_amount_cases (150000 * g - b) 8) as [[deposit Hd] | [e1 [Hd He1]]];
    rewrite Hd; cbn [prepend app].
  2: { exists e1. repeat split; try assumption.
       intros H0 H1.
       destruct (format_eth_amount_uint256 (150000 * g - b) 8 ltac:(lia)) as [x Hx].
       congruence. }
  destruct (format_eth_amount_cases (150000 * g) 8) as [[total Ht] | [e2 [Ht He2]]];
    rewrite Ht; cbn [prepend app].
  2: { exists e2. repeat split; try assumption.
       intros H0 H1.
       destruct (format_eth_amount_uint256 (150000 * g) 8 ltac:(lia)) as [x Hx].
       congruence. }
  destruct (format_eth_amount_cases b 8) as [[current Hc] | [e3 [Hc He3]]];
    rewrite Hc; cbn [prepend app raise].
  2: { exists e3. repeat split; try assumption.
       intros H0 H1.
       destruct (format_eth_amount_uint256 b 8 ltac:(lia)) as [x Hx].
       congruence. }
  eexists. split; [reflexivity |]. split; [reflexivity |].
  intros _ _. exists deposit, total, current. repeat split.
Qed.

(** C3. When the Funder's balance [b] covers [150000 * g] and the node
    answers the nonce request and the broadcast (gas price and nonce
    non-negative, as a node returns them), [send_gas_fee] signs with
    the Funder's key and broadcasts one plain transfer to the Holder, of
    value exactly [150000 * g], gas limit 21000, gas price [g], the
    Funder's transaction count as nonce and chain id 10, and returns the
    node's hash with the amount sent. *)
Theorem send_gas_fee_funded st g b n h w1 w2 w3 w4 :
  respond Z eth_gas_price (node st) = (Returns g, w1) ->
  0 <= g ->
  respond Z (eth_get_balance address2) w1 = (Returns b, w2) ->
  150000 * g <= b ->
  respond Z (eth_get_transaction_count address2) w2 = (Returns n, w3) ->
  0 <= n ->
  let tx := {| tx_to := address1;
               tx_value := 150000 * g;
               tx_gas := 21000;
               tx_gasPrice := g;
               tx_nonce := n;
               tx_chainId := 10;
               tx_data := None |} in
  respond HexBytes (eth_send_raw_transaction (Serialized tx private_key2)) w3
  = (Returns h, w4) ->
  send_gas_fee st
  = (Done (h, 150000 * g), mk_state w4 (running st),
     [Io eth_gas_price (Returns g);
      Io (eth_get_balance address2) (Returns b);
      Io (eth_get_transaction_count address2) (Returns n);
      Sign tx private_key2;
      Io (eth_send_raw_transaction (Serialized tx private_key2)) (Returns h)]).
Proof.
  intros Hg Hg0 Hb Hge Hn Hn0 tx Hh.
  unfold send_gas_fee, estimate_gas_cost, bind, perform, sign_transaction, ret. cbv zeta.
  rewrite Hg. cbn [node running prepend app].
  rewrite Hb. cbn [node running prepend app].
  replace (b <? 150000 * g) with false by (symmetry; apply Z.ltb_ge; exact Hge).
  cbn [node running prepend app].
  rewrite Hn. cbn [node running prepend app raw_transaction].
  fold tx. rewrite Hh. reflexivity.
Qed.

(** C4. When the balance [b] that [transfer_all_tokens] reads for the
    Holder is positive and the node answers the later requests (balance
    within uint256, gas price and nonce non-negative, as a node returns
    them), it signs
    with the Holder's key and broadcasts one call of the token's
    [transfer(address2, b)], with gas limit 150000, the quoted gas price,
    the Holder's transaction count as nonce and chain id 10, and returns
    the node's hash. *)
Theorem transfer_all_tokens_sweep st b g n h w1 w2 w3 w4 :
  respond Z (call_balanceOf TOKEN_ADDRESS address1) (node st) = (Returns b, w1) ->
  0 < b < 2 ^ 256 ->
  respond Z eth_gas_price w1 = (Returns g, w2) ->
  0 <= g ->
  respond Z (eth_get_transaction_count address1) w2 = (Returns n, w3) ->
  0 <= n ->
  let tx := {| tx_to := TOKEN_ADDRESS;
               tx_value := 0;
               tx_gas := 150000;
               tx_gasPrice := g;
               tx_nonce := n;
               tx_chainId := 10;
               tx_data := Some (mk_call TOKEN_ADDRESS "transfer"
                                  [abi_address address2; abi_uint256 b]) |} in
  respond HexBytes (eth_send_raw_transaction (Serialized tx private_key1)) w3
  = (Returns h, w4) ->
  transfer_all_tokens st
  = (Done h, mk_state w4 (running st),
     [Io (call_balanceOf TOKEN_ADDRESS address1) (Returns b);
      Io eth_gas_price (Returns g);
      Io (eth_get_transaction_count address1) (Returns n);
      Sign tx private_key1;
      Io (eth_send_raw_transaction (Serialized tx private_key1)) (Returns h)]).
Proof.
  intros Hb [Hpos Hmax] Hg Hg0 Hn Hn0 tx Hh.
  unfold transfer_all_tokens, get_token_balance, estimate_gas_cost, build_transaction,
    bind, perform, sign_transaction, ret. cbv zeta.
  rewrite Hb. cbn [node running prepend app].
  replace (b =? 0) with false by (symmetry; apply Z.eqb_neq; lia).
  cbn [node running prepend app].
  rewrite Hg. cbn [node running prepend app].
  rewrite Hn.
  cbn [node running prepend app raw_transaction call_contract p_gas p_gasPrice p_nonce p_chainId].
  fold tx. rewrite Hh. reflexivity.
Qed.

(** *** What a computation never does *)

Lemma sends_app (t1 t2 : list event) : sends (t1 ++ t2) = (sends t1 ++ sends t2)%list.
Proof. apply filter_app. Qed.

Lemma silent_ret {A : Type} (a : A) : silent (ret a).
Proof. intros st. reflexivity. Qed.

Lemma silent_raise {A : Type} (e : exn) : silent (raise e : M A).
Proof. intros st. reflexivity. Qed.

Lemma silent_lift {A : Type} (o : outcome A) : silent (lift o).
Proof. intros st. reflexivity. Qed.

Lemma silent_print (text : string) : silent (print text).
Proof. intros st. reflexivity. Qed.

Lemma silent_bind {A B : Type} (m : M A) (k : A -> M B) :
  silent m -> (forall a, silent (k a)) -> silent (bind m k).
Proof.
  intros Hm Hk st. unfold bind. specialize (Hm st).
  destruct (m st) as [[o st1] t1]. cbn [snd] in Hm.
  destruct o; cbn [snd]; try assumption.
  specialize (Hk a st1). destruct (k a st1) as [[o2 st2] t2]. cbn [snd prepend] in *.
  now rewrite sends_app, Hm, Hk.
Qed.

Lemma signal_handler_run {A : Type} st :
  @signal_handler A st
  = (Exited 0, mk_state (node st) false,
     [Out ((nl ++ nl ++ glyph_stop ++ " Deteksi CTRL+C. Menghentikan program...") ++ nl)]).
Proof. reflexivity. Qed.

Lemma silent_perform {X : Type} (op : io X) :
  is_broadcast (Io op Sigint) = false -> silent (perform op).
Proof.
  intros Hop st. unfold perform.
  destruct (respond X op (node st)) as [r w].
  assert (Hr : forall r', is_broadcast (Io op r') = false) by (intros r'; exact Hop).
  destruct r; [| | rewrite signal_handler_run];
    cbn [snd prepend app]; unfold sends; cbn [filter is_signature orb];
    rewrite Hr; reflexivity.
Qed.

Lemma print_balance_info_silent : silent print_balance_info.
Proof.
  unfold print_balance_info, get_token_symbol, get_token_balance.
  repeat first
    [ apply silent_bind; [| intros ?]
    | apply silent_perform; reflexivity
    | apply silent_print
    | apply silent_lift ].
Qed.

(** *** One cycle *)

Lemma try_except_Done {A : Type} (body : M A) (handler : exn -> M A) st a st1 t :
  body st = (Done a, st1, t) -> try_except body handler st = (Done a, st1, t).
Proof. intros H. unfold try_except. now rewrite H. Qed.

Lemma try_except_Raised {A : Type} (body : M A) (handler : exn -> M A) st e st1 t :
  body st = (Raised e, st1, t) -> try_except body handler st = prepend t (handler e st1).
Proof. intros H. unfold try_except. now rewrite H. Qed.

Lemma try_except_Exited {A : Type} (body : M A) (handler : exn -> M A) st c st1 t :
  body st = (Exited c, st1, t) -> try_except body handler st = (Exited c, st1, t).
Proof. intros H. unfold try_except. now rewrite H. Qed.

(** A cycle whose guard reads a positive balance, and whose funding and
    first wait go through, reaches the call of [transfer_all_tokens]. *)
Lemma cycle_reaches_sweep st st1 t1 b w2 h eth_sent st3 t3 eth_text w4 :
  print_balance_info st = (Done tt, st1, t1) ->
  respond Z (call_balanceOf TOKEN_ADDRESS address1) (node st1) = (Returns b, w2) ->
  0 < b ->
  send_gas_fee (mk_state w2 (running st1)) = (Done (h, eth_sent), st3, t3) ->
  format_eth_amount eth_sent 8 = Done eth_text ->
  respond unit (time_sleep 1) (node st3) = (Returns tt, w4) ->
  transfer_cycle_body st
  = prepend (cycle_heading ++ t1 ++ funding_events b t3 h eth_text)
      (bind transfer_all_tokens after_sweep (mk_state w4 (running st3))).
Proof.
  intros Hreport Hguard Hpos Hfund Htext Hsleep.
  unfold transfer_cycle_body, get_token_balance.
  rewrite !bind_print.
  rewrite (bind_Done _ _ _ _ _ _ Hreport).
  rewrite (bind_perform _ _ _ _ _ Hguard).
  replace (0 <? b) with true by (symmetry; apply Z.ltb_lt; exact Hpos).
  rewrite bind_print.
  rewrite (bind_Done _ _ _ _ _ _ Hfund).
  rewrite bind_print. rewrite Htext, bind_lift_Done.
  rewrite !bind_print.
  rewrite (bind_perform _ _ _ _ _ Hsleep).
  rewrite bind_print.
  rewrite !prepend_prepend.
  unfold cycle_heading, funding_events.
  f_equal. rewrite <- !app_assoc. reflexivity.
Qed.

(** C7. In a cycle whose guard reads a Holder balance of 0 (so the first
    balance report went through), the cycle prints the "nothing to
    transfer" line right after the guard's read and returns without
    error; the whole cycle signs nothing and broadcasts nothing. *)
Theorem cycle_nothing_to_transfer st st1 t1 w2 :
  print_balance_info st = (Done tt, st1, t1) ->
  respond Z (call_balanceOf TOKEN_ADDRESS address1) (node st1) = (Returns 0, w2) ->
  execute_transfer_cycle st
  = (Done tt, mk_state w2 (running st1),
     (cycle_heading ++ t1
      ++ [Io (call_balanceOf TOKEN_ADDRESS address1) (Returns 0);
          Out ((nl ++ "Tidak ada token yang bisa ditransfer (saldo = 0)") ++ nl)])%list)
  /\ sends (snd (execute_transfer_cycle st)) = [].
Proof.
  intros Hreport Hguard.
  assert (E : execute_transfer_cycle st
              = (Done tt, mk_state w2 (running st1),
                 (cycle_heading ++ t1
                  ++ [Io (call_balanceOf TOKEN_ADDRESS address1) (Returns 0);
                      Out ((nl ++ "Tidak ada token yang bisa ditransfer (saldo = 0)")
                           ++ nl)])%list)).
  { unfold execute_transfer_cycle. apply try_except_Done.
    unfold transfer_cycle_body, get_token_balance.
    rewrite !bind_print.
    rewrite (bind_Done _ _ _ _ _ _ Hreport).
    rewrite (bind_perform _ _ _ _ _ Hguard).
    change (0 <? 0) with false. cbv iota.
    rewrite !prepend_prepend. unfold print, print_end, cycle_heading.
    cbn [prepend]. f_equal. rewrite <- !app_assoc. reflexivity. }
  split; [exact E |]. rewrite E. cbn [snd].
  pose proof (print_balance_info_silent st) as Hsilent. rewrite Hreport in Hsilent.
  cbn [snd] in Hsilent.
  rewrite !sends_app, Hsilent. reflexivity.
Qed.

(** C8. In a cycle whose guard reads a positive Holder balance, whose
    funding succeeds and whose waits, sweep and reports go through, the
    events are, in this order: the first balance report, the guard's
    read, the events of [send_gas_fee], a sleep of 1, the events of
    [transfer_all_tokens], a second sleep of 1, and the second balance
    report. *)
Theorem cycle_order st st1 t1 b w2 h eth_sent st3 t3 eth_text w4 h' st5 t5 w6 st7 t7 :
  print_balance_info st = (Done tt, st1, t1) ->
  respond Z (call_balanceOf TOKEN_ADDRESS address1) (node st1) = (Returns b, w2) ->
  0 < b ->
  send_gas_fee (mk_state w2 (running st1)) = (Done (h, eth_sent), st3, t3) ->
  format_eth_amount eth_sent 8 = Done eth_text ->
  respond unit (time_sleep 1) (node st3) = (Returns tt, w4) ->
  transfer_all_tokens (mk_state w4 (running st3)) = (Done h', st5, t5) ->
  respond unit (time_sleep 1) (node st5) = (Returns tt, w6) ->
  print_balance_info (mk_state w6 (running st5)) = (Done tt, st7, t7) ->
  execute_transfer_cycle st
  = (Done tt, st7,
     (cycle_heading ++ t1
      ++ [Io (call_balanceOf TOKEN_ADDRESS address1) (Returns b);
          Out ("[1/3] Mengirim gas fee dari private_key2 ke private_key1..." ++ nl)]
      ++ t3
      ++ [Out (("  " ++ glyph_check ++ " Gas fee sent: " ++ hex h) ++ nl);
          Out (("  " ++ glyph_check ++ " ETH dikirim: " ++ eth_text ++ " ETH") ++ nl);
          Out ((nl ++ "[2/3] Menunggu 1 detik untuk konfirmasi...") ++ nl);
          Io (time_sleep 1) (Returns tt);
          Out ((nl ++ "[3/3] Mentransfer semua token dari private_key1 ke private_key2...")
               ++ nl)]
      ++ t5
      ++ [Out (("  " ++ glyph_check ++ " Token transfer sent: " ++ hex h') ++ nl);
          Out ((nl ++ "Menunggu 1 detik untuk konfirmasi transfer token...") ++ nl);
          Io (time_sleep 1) (Returns tt);
          Out ((nl ++ banner) ++ nl);
          Out (center "HASIL AKHIR" 50 ++ nl);
          Out (banner ++ nl)]
      ++ t7)%list).
Proof.
  intros Hreport Hguard Hpos Hfund Htext Hsleep Hsweep Hsleep' Hreport'.
  unfold execute_transfer_cycle. apply try_except_Done.
  rewrite (cycle_reaches_sweep _ _ _ _ _ _ _ _ _ _ _ Hreport Hguard Hpos Hfund Htext Hsleep).
  rewrite (bind_Done _ _ _ _ _ _ Hsweep).
  unfold after_sweep.
  rewrite !bind_print.
  rewrite (bind_perform _ _ _ _ _ Hsleep').
  rewrite !bind_print.
  rewrite Hreport'.
  rewrite !prepend_prepend. unfold funding_events. cbn [prepend].
  f_equal. rewrite <- !app_assoc. reflexivity.
Qed.

(** *** Whose balance is swept *)

(** [transfer_all_tokens] on a first read of zero, and on a first read
    other than zero followed by answers to its later requests. *)
Lemma sweep_reads_zero st w :
  respond Z (call_balanceOf TOKEN_ADDRESS address1) (node st) = (Returns 0, w) ->
  transfer_all_tokens st
  = (Raised (mk_exn ValueError "Saldo token kosong, tidak ada yang bisa ditransfer"),
     mk_state w (running st),
     [Io (call_balanceOf TOKEN_ADDRESS address1) (Returns 0)]).
Proof.
  intros H. unfold transfer_all_tokens, get_token_balance. cbv zeta.
  rewrite (bind_perform _ _ _ _ _ H).
  change (0 =? 0) with true. cbv iota.
  rewrite bind_raise. reflexivity.
Qed.

Lemma sweep_reads_nonzero st b g n h w1 w2 w3 w4 :
  respond Z (call_balanceOf TOKEN_ADDRESS address1) (node st) = (Returns b, w1) ->
  b <> 0 ->
  respond Z eth_gas_price w1 = (Returns g, w2) ->
  respond Z (eth_get_transaction_count address1) w2 = (Returns n, w3) ->
  let tx := {| tx_to := TOKEN_ADDRESS;
               tx_value := 0;
               tx_gas := 150000;
               tx_gasPrice := g;
               tx_nonce := n;
               tx_chainId := 10;
               tx_data := Some (mk_call TOKEN_ADDRESS "transfer"
                                  [abi_address address2; abi_uint256 b]) |} in
  respond HexBytes (eth_send_raw_transaction (Serialized tx private_key1)) w3
  = (Returns h, w4) ->
  transfer_all_tokens st
  = (Done h, mk_state w4 (running st),
     [Io (call_balanceOf TOKEN_ADDRESS address1) (Returns b);
      Io eth_gas_price (Returns g);
      Io (eth_get_transaction_count address1) (Returns n);
      Sign tx private_key1;
      Io (eth_send_raw_transaction (Serialized tx private_key1)) (Returns h)]).
Proof.
  intros Hb Hnz Hg Hn tx Hh.
  unfold transfer_all_tokens, get_token_balance, estimate_gas_cost, build_transaction,
    bind, perform, sign_transaction, ret. cbv zeta.
  rewrite Hb. cbn [node running prepend app].
  replace (b =? 0) with false by (symmetry; apply Z.eqb_neq; exact Hnz).
  cbn [node running prepend app].
  rewrite Hg. cbn [node running prepend app].
  rewrite Hn.
  cbn [node running prepend app raw_transaction call_contract p_gas p_gasPrice p_nonce p_chainId].
  fold tx. rewrite Hh. reflexivity.
Qed.

(** Every run of [transfer_all_tokens] opens with its own query of the
    Holder's balance, answered by the node as it is then. *)
Lemma sweep_queries_first st :
  exists t,
    snd (transfer_all_tokens st)
    = Io (call_balanceOf TOKEN_ADDRESS address1)
         (fst (respond Z (call_balanceOf TOKEN_ADDRESS address1) (node st))) :: t.
Proof.
  unfold transfer_all_tokens, get_token_balance. cbv zeta.
  unfold bind at 1. unfold perform at 1.
  destruct (respond Z (call_balanceOf TOKEN_ADDRESS address1) (node st)) as [r w].
  cbn [fst].
  destruct r.
  - match goal with
    | |- context [prepend ?t ?r] => destruct r as [[o st1] t1]
    end.
    cbn [snd prepend app]. eexists. reflexivity.
  - cbn [snd]. eexists. reflexivity.
  - rewrite signal_handler_run. cbn [snd prepend app]. eexists. reflexivity.
Qed.

(** C10. [transfer_all_tokens] opens with its own [balanceOf] query of
    the Holder.  When that query reads 0 it raises the empty-balance
    error; when it reads [b <> 0] the transaction it signs and broadcasts
    transfers exactly [b].  In [execute_transfer_cycle] the guard's read
    is an earlier, separate query: in a cycle whose guard read a positive
    balance and whose funding went through, a sweep that reads 0 still
    raises the empty-balance error, which ends the cycle. *)
Theorem sweep_uses_own_read :
  (forall st, exists t,
      snd (transfer_all_tokens st)
      = Io (call_balanceOf TOKEN_ADDRESS address1)
           (fst (respond Z (call_balanceOf TOKEN_ADDRESS address1) (node st))) :: t)
  /\ (forall st w,
        respond Z (call_balanceOf TOKEN_ADDRESS address1) (node st) = (Returns 0, w) ->
        transfer_all_tokens st
        = (Raised (mk_exn ValueError "Saldo token kosong, tidak ada yang bisa ditransfer"),
           mk_state w (running st),
           [Io (call_balanceOf TOKEN_ADDRESS address1) (Returns 0)]))
  /\ (forall st b g n h w1 w2 w3 w4,
        respond Z (call_balanceOf TOKEN_ADDRESS address1) (node st) = (Returns b, w1) ->
        b <> 0 ->
        respond Z eth_gas_price w1 = (Returns g, w2) ->
        respond Z (eth_get_transaction_count address1) w2 = (Returns n, w3) ->
        let tx := {| tx_to := TOKEN_ADDRESS;
                     tx_value := 0;
                     tx_gas := 150000;
                     tx_gasPrice := g;
                     tx_nonce := n;
                     tx_chainId := 10;
                     tx_data := Some (mk_call TOKEN_ADDRESS "transfer"
                                        [abi_address address2; abi_uint256 b]) |} in
        respond HexBytes (eth_send_raw_transaction (Serialized tx private_key1)) w3
        = (Returns h, w4) ->
        sends (snd (transfer_all_tokens st))
        = [Sign tx private_key1;
           Io (eth_send_raw_transaction (Serialized tx private_key1)) (Returns h)])
  /\ (forall st st1 t1 b w2 h eth_sent st3 t3 eth_text w4 w5,
        print_balance_info st = (Done tt, st1, t1) ->
        respond Z (call_balanceOf TOKEN_ADDRESS address1) (node st1) = (Returns b, w2) ->
        0 < b ->
        send_gas_fee (mk_state w2 (running st1)) = (Done (h, eth_sent), st3, t3) ->
        format_eth_amount eth_sent 8 = Done eth_text ->
        respond unit (time_sleep 1) (node st3) = (Returns tt, w4) ->
        respond Z (call_balanceOf TOKEN_ADDRESS address1) w4 = (Returns 0, w5) ->
        execute_transfer_cycle st
        = (Done tt, mk_state w5 (running st3),
           (cycle_heading ++ t1 ++ funding_events b t3 h eth_text
            ++ [Io (call_balanceOf TOKEN_ADDRESS address1) (Returns 0);
                Out ((nl ++ glyph_cross ++ " ERROR: "
                      ++ "Saldo token kosong, tidak ada yang bisa ditransfer") ++ nl)])%list)).
Proof.
  split; [exact sweep_queries_first |].
  split; [exact sweep_reads_zero |].
  split.
  - intros st b g n h w1 w2 w3 w4 Hb Hnz Hg Hn tx Hh.
    rewrite (sweep_reads_nonzero st b g n h w1 w2 w3 w4 Hb Hnz Hg Hn Hh).
    reflexivity.
  - intros st st1 t1 b w2 h eth_sent st3 t3 eth_text w4 w5
      Hreport Hguard Hpos Hfund Htext Hsleep Hzero.
    unfold execute_transfer_cycle.
    assert (Hbody : transfer_cycle_body st
                    = (Raised (mk_exn ValueError
                                 "Saldo token kosong, tidak ada yang bisa ditransfer"),
                       mk_state w5 (running st3),
                       (cycle_heading ++ t1 ++ funding_events b t3 h eth_text
                        ++ [Io (call_balanceOf TOKEN_ADDRESS address1) (Returns 0)])%list)).
    { rewrite (cycle_reaches_sweep _ _ _ _ _ _ _ _ _ _ _
                 Hreport Hguard Hpos Hfund Htext Hsleep).
      rewrite (bind_Raised _ _ _ _ _ _
                 (sweep_reads_zero (mk_state w4 (running st3)) w5 Hzero)).
      cbn [prepend]. f_equal. rewrite <- !app_assoc. reflexivity. }
    rewrite (try_except_Raised _ _ _ _ _ _ Hbody).
    unfold transfer_cycle_handler. cbn [exn_type exn_str].
    unfold print, print_end. cbn [prepend]. f_equal. rewrite <- !app_assoc. reflexivity.
Qed.

(** *** How a computation can end *)

Lemma interrupted_app (t1 t2 : list event) :
  interrupted (t1 ++ t2) = interrupted t1 || interrupted t2.
Proof. apply existsb_app. Qed.

Lemma sound_ret {A : Type} (a : A) : sound (ret a).
Proof. intros st H. cbn. auto. Qed.

Lemma sound_raise {A : Type} (e : exn) : sound (raise e : M A).
Proof. intros st H. cbn. auto. Qed.

Lemma sound_lift {A : Type} (o : outcome A) : no_exit o -> sound (lift o).
Proof. intros Ho st H. unfold lift. destruct o; cbn in *; auto. contradiction. Qed.

Lemma sound_print_end (text end_ : string) : sound (print_end text end_).
Proof. intros st H. cbn. auto. Qed.

Lemma sound_print (text : string) : sound (print text).
Proof. apply sound_print_end. Qed.

Lemma sound_sign tx key : sound (sign_transaction tx key).
Proof. intros st H. cbn. auto. Qed.

Lemma sound_get_running : sound get_running.
Proof. intros st H. cbn. auto. Qed.

Lemma sound_perform {X : Type} (op : io X) : sound (perform op).
Proof.
  intros st H. unfold perform. destruct (respond X op (node st)) as [r w].
  destruct r; [| | rewrite signal_handler_run]; cbn; auto.
Qed.

Lemma well_ended_prepend {A : Type} (t : list event) (r : outcome A * state * list event) :
  interrupted t = false -> well_ended r -> well_ended (prepend t r).
Proof.
  intros Ht. destruct r as [[o st] t']. unfold well_ended, prepend.
  rewrite interrupted_app, Ht. destruct o; cbn [orb]; auto.
Qed.

Lemma sound_bind {A B : Type} (m : M A) (k : A -> M B) :
  sound m -> (forall a, sound (k a)) -> sound (bind m k).
Proof.
  intros Hm Hk st H. unfold bind. specialize (Hm st H).
  destruct (m st) as [[o st1] t1]. destruct o; cbn in Hm; try exact Hm.
  destruct Hm as [Hrun Hint]. apply well_ended_prepend; [exact Hint |].
  apply Hk, Hrun.
Qed.

Lemma sound_try_except {A : Type} (body : M A) (handler : exn -> M A) :
  sound body -> (forall e, sound (handler e)) -> sound (try_except body handler).
Proof.
  intros Hb Hh st H. unfold try_except. specialize (Hb st H).
  destruct (body st) as [[o st1] t1]. destruct o; cbn in Hb; try exact Hb.
  destruct Hb as [Hrun Hint]. apply well_ended_prepend; [exact Hint |].
  apply Hh, Hrun.
Qed.

Lemma true_divide_no_exit (a b : Z) : no_exit (true_divide a b).
Proof.
  unfold true_divide. destruct (b =? 0); [exact I |].
  destruct (a =? 0); [exact I |]. destruct (_ <=? _); exact I.
Qed.

Lemma format_token_amount_no_exit (a : Z) (p : nat) : no_exit (format_token_amount a p).
Proof.
  unfold format_token_amount. pose proof (true_divide_no_exit a (10 ^ 18)) as H.
  destruct (true_divide a (10 ^ 18)); cbn in *; auto.
Qed.

Lemma format_eth_amount_no_exit (a : Z) (p : nat) : no_exit (format_eth_amount a p).
Proof.
  unfold format_eth_amount, from_wei. destruct (_ || _); cbn; exact I.
Qed.

Ltac sound_steps :=
  repeat first
    [ apply sound_bind; [| intros ?]
    | apply sound_perform
    | apply sound_print
    | apply sound_print_end
    | apply sound_sign
    | apply sound_ret
    | apply sound_raise
    | apply sound_get_running
    | apply sound_lift; first [ apply format_eth_amount_no_exit
                              | apply format_token_amount_no_exit ]
    | match goal with
      | |- sound (if ?c then _ else _) => destruct c
      | |- sound (let '(_, _) := ?p in _) => destruct p
      end ].

Lemma sound_send_gas_fee : sound send_gas_fee.
Proof. unfold send_gas_fee. cbv zeta. sound_steps. Qed.

Lemma sound_transfer_all_tokens : sound transfer_all_tokens.
Proof. unfold transfer_all_tokens, get_token_balance. cbv zeta. sound_steps. Qed.

Lemma sound_print_balance_info : sound print_balance_info.
Proof.
  unfold print_balance_info, get_token_symbol, get_token_balance. sound_steps.
Qed.

Lemma sound_transfer_cycle_body : sound transfer_cycle_body.
Proof.
  unfold transfer_cycle_body, get_token_balance.
  repeat first
    [ apply sound_send_gas_fee
    | apply sound_transfer_all_tokens
    | apply sound_print_balance_info
    | progress sound_steps ].
Qed.

Lemma sound_transfer_cycle_handler (e : exn) : sound (transfer_cycle_handler e).
Proof. unfold transfer_cycle_handler. destruct (exn_type e); apply sound_print. Qed.

Lemma sound_execute_transfer_cycle : sound execute_transfer_cycle.
Proof.
  apply sound_try_except;
    [apply sound_transfer_cycle_body | apply sound_transfer_cycle_handler].
Qed.

(** *** The outer loop *)

Lemma transfer_cycle_handler_run (e : exn) st :
  transfer_cycle_handler e st
  = (Done tt, st, [Out ((nl ++ glyph_cross ++ error_label e) ++ nl)]).
Proof. unfold transfer_cycle_handler, error_label. destruct (exn_type e); reflexivity. Qed.

Lemma cycle_catches st e st1 t :
  transfer_cycle_body st = (Raised e, st1, t) ->
  execute_transfer_cycle st
  = (Done tt, st1, (t ++ [Out ((nl ++ glyph_cross ++ error_label e) ++ nl)])%list).
Proof.
  intros H. unfold execute_transfer_cycle.
  rewrite (try_except_Raised _ _ _ _ _ _ H), transfer_cycle_handler_run. reflexivity.
Qed.

(** A cycle started with [running] set returns normally, uninterrupted,
    or ends in [sys.exit(0)] because CTRL+C arrived; it never raises. *)
Lemma cycle_ends st :
  running st = true ->
  match execute_transfer_cycle st with
  | (Done _, st1, t) => running st1 = true /\ interrupted t = false
  | (Raised _, _, _) => False
  | (Exited code, st1, t) => code = 0 /\ running st1 = false /\ interrupted t = true
  end.
Proof.
  intros H. pose proof (sound_transfer_cycle_body st H) as Hbody.
  unfold execute_transfer_cycle, try_except.
  destruct (transfer_cycle_body st) as [[o st1] t]. destruct o; cbn in Hbody.
  - exact Hbody.
  - rewrite transfer_cycle_handler_run. cbn [prepend].
    destruct Hbody as [Hrun Hint]. split; [exact Hrun |].
    rewrite interrupted_app, Hint. reflexivity.
  - exact Hbody.
Qed.

Lemma get_running_run st : get_running st = (Done (running st), st, []).
Proof. reflexivity. Qed.

Lemma bind_assoc {A B C : Type} (m : M A) (k1 : A -> M B) (k2 : B -> M C) st :
  bind (bind m k1) k2 st = bind m (fun a => bind (k1 a) k2) st.
Proof.
  unfold bind. destruct (m st) as [[o s1] t1]. destruct o; try reflexivity.
  destruct (k1 a s1) as [[o2 s2] t2]. destruct o2; try reflexivity.
  cbn [prepend]. now rewrite prepend_prepend.
Qed.

Lemma bind_print_end {B : Type} (text end_ : string) (k : unit -> M B) st :
  bind (print_end text end_) k st = prepend [Out (text ++ end_)] (k tt st).
Proof. reflexivity. Qed.

(** *** What holds of every event of every run *)

Section Always.

Variable P : event -> Prop.
Hypothesis P_Out : forall text, P (Out text).

Lemma always_ret {A : Type} (a : A) : always P (ret a).
Proof. intros st. constructor. Qed.

Lemma always_raise {A : Type} (e : exn) : always P (raise e : M A).
Proof. intros st. constructor. Qed.

Lemma always_lift {A : Type} (o : outcome A) : always P (lift o).
Proof. intros st. constructor. Qed.

Lemma always_get_running : always P get_running.
Proof. intros st. constructor. Qed.

Lemma always_print_end (text end_ : string) : always P (print_end text end_).
Proof. intros st. cbn [print_end snd]. constructor; [apply P_Out | constructor]. Qed.

Lemma always_print (text : string) : always P (print text).
Proof. apply always_print_end. Qed.

Lemma always_perform {X : Type} (op : io X) :
  (forall r, P (Io op r)) -> always P (perform op).
Proof.
  intros Hop st. unfold perform. destruct (respond X op (node st)) as [r w].
  destruct r; [| | rewrite signal_handler_run]; cbn [snd prepend app];
    repeat constructor; first [apply Hop | apply P_Out].
Qed.

Lemma Forall_prepend {A : Type} (t : list event) (r : outcome A * state * list event) :
  Forall P t -> Forall P (snd r) -> Forall P (snd (prepend t r)).
Proof.
  intros Ht Hr. destruct r as [[o st] t']. cbn [prepend snd] in *.
  apply Forall_app. split; assumption.
Qed.

Lemma always_bind {A B : Type} (m : M A) (k : A -> M B) :
  always P m -> (forall a, always P (k a)) -> always P (bind m k).
Proof.
  intros Hm Hk st. unfold bind. specialize (Hm st).
  destruct (m st) as [[o st1] t1]. cbn [snd] in Hm.
  destruct o; cbn [snd]; try exact Hm.
  apply Forall_prepend; [exact Hm | apply Hk].
Qed.

Lemma always_sign tx key : P (Sign tx key) -> always P (sign_transaction tx key).
Proof. intros Hs st. repeat constructor. exact Hs. Qed.

(** What is broadcast after a signature is what was signed. *)
Lemma always_sign_then {B : Type} tx key (k : SignedTransaction -> M B) :
  P (Sign tx key) -> always P (k (mk_signed (Serialized tx key))) ->
  always P (bind (sign_transaction tx key) k).
Proof.
  intros Hs Hk st. rewrite bind_sign.
  apply Forall_prepend; [repeat constructor; exact Hs | apply Hk].
Qed.

Lemma always_try_except {A : Type} (body : M A) (handler : exn -> M A) :
  always P body -> (forall e, always P (handler e)) -> always P (try_except body handler).
Proof.
  intros Hb Hh st. unfold try_except. specialize (Hb st).
  destruct (body st) as [[o st1] t1]. cbn [snd] in Hb.
  destruct o; cbn [snd]; try exact Hb.
  apply Forall_prepend; [exact Hb | apply Hh].
Qed.

Lemma always_for_each (items : list Z) (body : Z -> M bool) :
  (forall i, always P (body i)) -> always P (for_each items body).
Proof.
  intros Hbody. induction items as [| i rest IH]; cbn [for_each].
  - apply always_ret.
  - apply always_bind; [apply Hbody |]. intros [|]; [apply always_ret | exact IH].
Qed.

Lemma always_transfer_cycle_handler (e : exn) : always P (transfer_cycle_handler e).
Proof. unfold transfer_cycle_handler. destruct (exn_type e); apply always_print. Qed.

End Always.

Ltac always_step :=
  first
    [ apply always_sign_then; [try assumption |]
    | apply always_bind; [| intros ?]
    | apply always_sign; try assumption
    | apply always_print; try assumption
    | apply always_print_end; try assumption
    | apply always_ret
    | apply always_raise
    | apply always_get_running
    | apply always_lift
    | apply always_transfer_cycle_handler; try assumption
    | match goal with
      | |- always _ (if ?c then _ else _) => destruct c
      | |- always _ (let '(_, _) := ?p in _) => destruct p
      end ].

Ltac always_steps := repeat always_step.

Lemma authorised_Out (text : string) : authorised (Out text).
Proof. exact I. Qed.

Lemma expected_request_Out (text : string) : expected_request (Out text).
Proof. exact I. Qed.

Lemma always_authorised_send_gas_fee : always authorised send_gas_fee.
Proof.
  pose proof authorised_Out as HO.
  unfold send_gas_fee, estimate_gas_cost. cbv zeta.
  apply always_bind; [apply always_perform; [exact HO | intros r; exact I] |].
  intros gas_price.
  apply always_bind; [apply always_perform; [exact HO | intros r; exact I] |].
  intros sender_balance.
  apply always_bind; [always_steps |]. intros _.
  apply always_bind; [apply always_perform; [exact HO | intros r; exact I] |].
  intros nonce.
  assert (Hsend : authorised_send
                    {| tx_to := address1; tx_value := 150000 * gas_price;
                       tx_gas := 21000; tx_gasPrice := gas_price; tx_nonce := nonce;
                       tx_chainId := 10; tx_data := None |} private_key2).
  { left. split; [reflexivity |]. repeat split. }
  apply always_sign_then; [exact Hsend |].
  apply always_bind; [apply always_perform; [exact HO | intros r; exact Hsend] |].
  intros h. apply always_ret.
Qed.

Lemma always_authorised_transfer_all_tokens : always authorised transfer_all_tokens.
Proof.
  pose proof authorised_Out as HO.
  unfold transfer_all_tokens, get_token_balance, estimate_gas_cost, build_transaction.
  cbv zeta.
  apply always_bind; [apply always_perform; [exact HO | intros r; exact I] |].
  intros balance. destruct (balance =? 0) eqn:Hzero.
  { intros st. rewrite bind_raise. constructor. }
  apply Z.eqb_neq in Hzero.
  intros st. rewrite bind_ret. revert st.
  apply always_bind; [apply always_perform; [exact HO | intros r; exact I] |].
  intros gas_price.
  apply always_bind; [apply always_perform; [exact HO | intros r; exact I] |].
  intros nonce. cbn [call_contract p_gas p_gasPrice p_nonce p_chainId].
  match goal with
  | |- always _ (bind (sign_transaction ?tx ?key) _) =>
      assert (Hsend : authorised_send tx key)
  end.
  { right. split; [reflexivity |]. repeat split. exists balance. split; [exact Hzero | reflexivity]. }
  apply always_sign_then; [exact Hsend |].
  apply always_bind; [apply always_perform; [exact HO | intros r; exact Hsend] |].
  intros h. apply always_ret.
Qed.

Ltac expected_steps :=
  repeat first
    [ progress always_steps
    | exact I
    | apply always_perform;
        [ exact expected_request_Out
        | intros ?; unfold expected_request; auto ] ].

Lemma always_expected_send_gas_fee : always expected_request send_gas_fee.
Proof.
  pose proof expected_request_Out as HO.
  unfold send_gas_fee, estimate_gas_cost. cbv zeta. expected_steps.
Qed.

Lemma always_expected_transfer_all_tokens : always expected_request transfer_all_tokens.
Proof.
  pose proof expected_request_Out as HO.
  unfold transfer_all_tokens, get_token_balance, estimate_gas_cost. cbv zeta.
  expected_steps.
Qed.

Lemma always_expected_print_balance_info : always expected_request print_balance_info.
Proof.
  pose proof expected_request_Out as HO.
  unfold print_balance_info, get_token_symbol, get_token_balance. expected_steps.
Qed.

Lemma always_authorised_print_balance_info : always authorised print_balance_info.
Proof.
  pose proof authorised_Out as HO.
  unfold print_balance_info, get_token_symbol, get_token_balance.
  repeat first
    [ progress always_steps
    | apply always_perform; [exact HO | intros ?; exact I] ].
Qed.

Section Program.

Variable P : event -> Prop.
Hypothesis P_Out : forall text, P (Out text).
Hypothesis P_guard : forall r, P (Io (call_balanceOf TOKEN_ADDRESS address1) r).
Hypothesis P_sleep : forall r, P (Io (time_sleep 1) r).
Hypothesis P_report : always P print_balance_info.
Hypothesis P_fund : always P send_gas_fee.
Hypothesis P_sweep : always P transfer_all_tokens.

Lemma always_execute_transfer_cycle : always P execute_transfer_cycle.
Proof.
  apply always_try_except; [| intros e; apply always_transfer_cycle_handler; exact P_Out].
  unfold transfer_cycle_body, get_token_balance.
  repeat first
    [ exact P_report
    | exact P_fund
    | exact P_sweep
    | always_step
    | apply always_perform; [exact P_Out | first [exact P_guard | exact P_sleep]] ].
Qed.

Lemma always_main_loop (fuel : nat) (c : Z) : always P (main_loop fuel c).
Proof.
  revert c. induction fuel as [| fuel IH]; intros c; cbn [main_loop].
  - apply always_ret.
  - cbv zeta. change (range 1 0 (-1)) with [1].
    repeat first
      [ apply IH
      | apply always_execute_transfer_cycle
      | apply always_for_each; [exact P_Out | intros ?]
      | always_step
      | apply always_perform; [exact P_Out | exact P_sleep] ].
Qed.

Lemma always_main (fuel : nat) : always P (main fuel).
Proof.
  unfold main.
  repeat first
    [ apply always_main_loop
    | always_step
    | match goal with |- always _ (match ?o with Some _ => _ | None => _ end) => destruct o end ].
Qed.

End Program.

(** X1.  Whatever the node answers, for however long the program runs:
    everything it signs, and every payload it broadcasts, is a funding
    transfer (to the Holder, of 150000 times its gas price, gas limit
    21000, chain id 10, no data) under the Funder's key, or a sweep (a
    call of the token's [transfer] to the Funder, of a non-zero amount,
    gas limit 150000, chain id 10, no native value) under the Holder's
    key. *)
Theorem every_send_is_a_funding_or_a_sweep (fuel : nat) st :
  Forall authorised (snd (main fuel st)).
Proof.
  apply always_main.
  - exact authorised_Out.
  - intros r. exact I.
  - intros r. exact I.
  - exact always_authorised_print_balance_info.
  - exact always_authorised_send_gas_fee.
  - exact always_authorised_transfer_all_tokens.
Qed.

(** X2.  Whatever the node answers, the only requests the program makes are:
    the gas price; the native balance and the transaction count of its
    two wallets; [balanceOf] of its two wallets and [symbol] on its one
    token; broadcasts; and sleeps of one second.  In particular it never
    asks the token for its [decimals]. *)
Theorem requests_stay_within_the_script (fuel : nat) st :
  Forall expected_request (snd (main fuel st)).
Proof.
  apply always_main.
  - exact expected_request_Out.
  - intros r. unfold expected_request. auto.
  - intros r. reflexivity.
  - exact always_expected_print_balance_info.
  - exact always_expected_send_gas_fee.
  - exact always_expected_transfer_all_tokens.
Qed.

(** *** The sends of one cycle *)

Lemma sends_prepend {A : Type} (t : list event) (r : outcome A * state * list event) :
  sends (snd (prepend t r)) = (sends t ++ sends (snd r))%list.
Proof. destruct r as [[o st] t']. cbn [prepend snd]. apply sends_app. Qed.

Lemma sends_bind {A B : Type} (m : M A) (k : A -> M B) st :
  sends (snd (bind m k st))
  = (sends (snd (m st))
     ++ match m st with
        | (Done a, st1, _) => sends (snd (k a st1))
        | _ => []
        end)%list.
Proof.
  unfold bind. destruct (m st) as [[o st1] t1].
  destruct o; cbn [snd]; [apply sends_prepend | |]; now rewrite app_nil_r.
Qed.

Lemma sends_within_silent_bind {A B : Type} (Q : list event -> Prop)
    (m : M A) (k : A -> M B) :
  silent m -> Q [] -> (forall a, sends_within Q (k a)) -> sends_within Q (bind m k).
Proof.
  intros Hm Hnil Hk st. rewrite sends_bind, (Hm st). cbn [app].
  destruct (m st) as [[o st1] t1]. destruct o; [apply Hk | exact Hnil | exact Hnil].
Qed.

Lemma sends_within_silent {A : Type} (Q : list event -> Prop) (m : M A) :
  silent m -> Q [] -> sends_within Q m.
Proof. intros Hm Hnil st. now rewrite (Hm st). Qed.

Lemma sends_within_try_except {A : Type} (Q : list event -> Prop)
    (body : M A) (handler : exn -> M A) :
  sends_within Q body -> (forall e, silent (handler e)) ->
  sends_within Q (try_except body handler).
Proof.
  intros Hb Hh st. unfold try_except. specialize (Hb st).
  destruct (body st) as [[o st1] t1]. destruct o; try exact Hb.
  rewrite sends_prepend, (Hh e st1), app_nil_r. exact Hb.
Qed.

(** [send_gas_fee] signs at most once, broadcasts what it signed, and
    returns only when that broadcast returned. *)
Lemma send_gas_fee_sends st :
  (sends (snd (send_gas_fee st)) = [] /\ forall x, fst (fst (send_gas_fee st)) <> Done x)
  \/ exists tx r,
       sends (snd (send_gas_fee st)) = signed_and_broadcast tx private_key2 r
       /\ forall x, fst (fst (send_gas_fee st)) = Done x -> exists h, r = Returns h.
Proof.
  unfold send_gas_fee, estimate_gas_cost. cbv zeta.
  destruct (respond Z eth_gas_price (node st)) as [r1 w1] eqn:E1.
  destruct r1 as [g | e | ].
  2: { rewrite (bind_Raised _ _ _ _ _ _ (perform_Throws _ _ _ _ E1)).
       left. split; [reflexivity | discriminate]. }
  2: { rewrite (bind_Exited _ _ _ _ _ _ (perform_Sigint _ _ _ E1)).
       left. split; [reflexivity | discriminate]. }
  rewrite (bind_perform _ _ _ _ _ E1).
  destruct (respond Z (eth_get_balance address2) w1) as [r2 w2] eqn:E2.
  destruct r2 as [b | e | ].
  2: { rewrite (bind_Raised _ _ _ _ _ _ (perform_Throws _ (mk_state w1 (running st)) _ _ E2)).
       left. split; [reflexivity | discriminate]. }
  2: { rewrite (bind_Exited _ _ _ _ _ _ (perform_Sigint _ (mk_state w1 (running st)) _ E2)).
       left. split; [reflexivity | discriminate]. }
  rewrite (bind_perform _ _ (mk_state w1 (running st)) _ _ E2).
  cbn [node running].
  destruct (b <? 150000 * g).
  { left.
    destruct (format_eth_amount (150000 * g - b) 8) as [s1 | e1 | c1];
      [| split; [reflexivity | discriminate] ..].
    destruct (format_eth_amount (150000 * g) 8) as [s2 | e2 | c2];
      [| split; [reflexivity | discriminate] ..].
    destruct (format_eth_amount b 8) as [s3 | e3 | c3];
      split; first [reflexivity | discriminate]. }
  rewrite bind_ret.
  destruct (respond Z (eth_get_transaction_count address2) w2) as [r3 w3] eqn:E3.
  destruct r3 as [n | e | ].
  2: { rewrite (bind_Raised _ _ _ _ _ _ (perform_Throws _ (mk_state w2 (running st)) _ _ E3)).
       left. split; [reflexivity | discriminate]. }
  2: { rewrite (bind_Exited _ _ _ _ _ _ (perform_Sigint _ (mk_state w2 (running st)) _ E3)).
       left. split; [reflexivity | discriminate]. }
  rewrite (bind_perform _ _ (mk_state w2 (running st)) _ _ E3).
  rewrite bind_sign. cbn [raw_transaction node running].
  right. eexists. 
  destruct (respond HexBytes
              (eth_send_raw_transaction
                 (Serialized
                    {| tx_to := address1; tx_value := 150000 * g; tx_gas := 21000;
                       tx_gasPrice := g; tx_nonce := n; tx_chainId := 10;
                       tx_data := None |} private_key2)) w3) as [r4 w4] eqn:E4.
  exists r4.
  destruct r4 as [h | e | ].
  - rewrite (bind_perform _ _ (mk_state w3 (running st)) _ _ E4).
    split; [reflexivity |]. intros x _. exists h. reflexivity.
  - rewrite (bind_Raised _ _ _ _ _ _ (perform_Throws _ (mk_state w3 (running st)) _ _ E4)).
    split; [reflexivity | discriminate].
  - rewrite (bind_Exited _ _ _ _ _ _ (perform_Sigint _ (mk_state w3 (running st)) _ E4)).
    split; [reflexivity | discriminate].
Qed.
(** [transfer_all_tokens] signs at most once, and broadcasts what it signed. *)
Lemma transfer_all_tokens_sends st :
  sends (snd (transfer_all_tokens st)) = []
  \/ exists tx r, sends (snd (transfer_all_tokens st)) = signed_and_broadcast tx private_key1 r.
Proof.
  unfold transfer_all_tokens, get_token_balance, estimate_gas_cost, build_transaction.
  cbv zeta.
  destruct (respond Z (call_balanceOf TOKEN_ADDRESS address1) (node st)) as [r1 w1] eqn:E1.
  destruct r1 as [b | e | ].
  2: { rewrite (bind_Raised _ _ _ _ _ _ (perform_Throws _ _ _ _ E1)). left. reflexivity. }
  2: { rewrite (bind_Exited _ _ _ _ _ _ (perform_Sigint _ _ _ E1)). left. reflexivity. }
  rewrite (bind_perform _ _ _ _ _ E1).
  destruct (b =? 0); [left; reflexivity |].
  rewrite bind_ret.
  destruct (respond Z eth_gas_price w1) as [r2 w2] eqn:E2.
  destruct r2 as [g | e | ].
  2: { rewrite (bind_Raised _ _ _ _ _ _ (perform_Throws _ (mk_state w1 (running st)) _ _ E2)).
       left. reflexivity. }
  2: { rewrite (bind_Exited _ _ _ _ _ _ (perform_Sigint _ (mk_state w1 (running st)) _ E2)).
       left. reflexivity. }
  rewrite (bind_perform _ _ (mk_state w1 (running st)) _ _ E2).
  destruct (respond Z (eth_get_transaction_count address1) w2) as [r3 w3] eqn:E3.
  destruct r3 as [n | e | ].
  2: { rewrite (bind_Raised _ _ _ _ _ _ (perform_Throws _ (mk_state w2 (running st)) _ _ E3)).
       left. reflexivity. }
  2: { rewrite (bind_Exited _ _ _ _ _ _ (perform_Sigint _ (mk_state w2 (running st)) _ E3)).
       left. reflexivity. }
  rewrite (bind_perform _ _ (mk_state w2 (running st)) _ _ E3).
  rewrite bind_sign.
  cbn [raw_transaction node running call_contract p_gas p_gasPrice p_nonce p_chainId].
  right. eexists.
  match goal with
  | |- context [perform (eth_send_raw_transaction ?raw)] =>
      destruct (respond HexBytes (eth_send_raw_transaction raw) w3) as [r4 w4] eqn:E4
  end.
  exists r4.
  destruct r4 as [h | e | ].
  - rewrite (bind_perform _ _ (mk_state w3 (running st)) _ _ E4). reflexivity.
  - rewrite (bind_Raised _ _ _ _ _ _ (perform_Throws _ (mk_state w3 (running st)) _ _ E4)).
    reflexivity.
  - rewrite (bind_Exited _ _ _ _ _ _ (perform_Sigint _ (mk_state w3 (running st)) _ E4)).
    reflexivity.
Qed.

Lemma silent_after_sweep (token_tx_hash : HexBytes) : silent (after_sweep token_tx_hash).
Proof.
  unfold after_sweep.
  repeat first
    [ apply print_balance_info_silent
    | apply silent_bind; [| intros ?]
    | apply silent_perform; reflexivity
    | apply silent_print ].
Qed.

Lemma silent_transfer_cycle_handler (e : exn) : silent (transfer_cycle_handler e).
Proof. unfold transfer_cycle_handler. destruct (exn_type e); apply silent_print. Qed.

(** In the model, where CTRL+C arrives during requests only, the sends
    of one cycle are: nothing, the funding, or the funding (its broadcast
    answered by a hash) and then the sweep. *)
Lemma cycle_sends_cases st :
  sends (snd (execute_transfer_cycle st)) = []
  \/ (exists tx r,
        sends (snd (execute_transfer_cycle st)) = signed_and_broadcast tx private_key2 r)
  \/ (exists tx h tx' r',
        sends (snd (execute_transfer_cycle st))
        = (signed_and_broadcast tx private_key2 (Returns h)
           ++ signed_and_broadcast tx' private_key1 r')%list).
Proof.
  set (Q := fun l : list event =>
              l = []
              \/ (exists tx r, l = signed_and_broadcast tx private_key2 r)
              \/ (exists tx h tx' r',
                    l = (signed_and_broadcast tx private_key2 (Returns h)
                         ++ signed_and_broadcast tx' private_key1 r')%list)).
  set (Q' := fun l : list event =>
               l = [] \/ exists tx r, l = signed_and_broadcast tx private_key1 r).
  assert (Hnil : Q []) by (left; reflexivity).
  assert (Hnil' : Q' []) by (left; reflexivity).
  enough (H : sends_within Q execute_transfer_cycle) by exact (H st).
  apply sends_within_try_except; [| exact silent_transfer_cycle_handler].
  unfold transfer_cycle_body.
  do 3 (apply sends_within_silent_bind; [apply silent_print | exact Hnil | intros _]).
  apply sends_within_silent_bind; [apply print_balance_info_silent | exact Hnil | intros _].
  apply sends_within_silent_bind;
    [apply silent_perform; reflexivity | exact Hnil | intros holder_balance].
  destruct (0 <? holder_balance);
    [| apply sends_within_silent; [apply silent_print | exact Hnil]].
  apply sends_within_silent_bind; [apply silent_print | exact Hnil | intros _].
  intros st2. rewrite sends_bind.
  destruct (send_gas_fee_sends st2) as [[Hs Hnot] | (tx & r & Hs & Hdone)]; rewrite Hs.
  - destruct (send_gas_fee st2) as [[o st3] t3]. cbn [fst] in Hnot.
    destruct o as [x | e | c]; [exfalso; exact (Hnot x eq_refl) | exact Hnil | exact Hnil].
  - destruct (send_gas_fee st2) as [[o st3] t3]. cbn [fst] in Hdone.
    destruct o as [[gas_tx_hash eth_sent] | e | c].
    2, 3: rewrite app_nil_r; right; left; exists tx, r; reflexivity.
    destruct (Hdone _ eq_refl) as [h ->].
    enough (H : sends_within Q'
                  (print ("  " ++ glyph_check ++ " Gas fee sent: " ++ hex gas_tx_hash) ;;
                   eth_text <- lift (format_eth_amount eth_sent 8) ;;
                   print ("  " ++ glyph_check ++ " ETH dikirim: " ++ eth_text ++ " ETH") ;;
                   print (nl ++ "[2/3] Menunggu 1 detik untuk konfirmasi...") ;;
                   perform (time_sleep 1) ;;
                   print (nl ++ "[3/3] Mentransfer semua token dari private_key1 ke private_key2...") ;;
                   token_tx_hash <- transfer_all_tokens ;;
                   after_sweep token_tx_hash)).
    { destruct (H st3) as [E | (tx' & r' & E)]; unfold after_sweep in E; rewrite E.
      - right. left. exists tx, (Returns h). now rewrite app_nil_r.
      - right. right. exists tx, h, tx', r'. reflexivity. }
    apply sends_within_silent_bind; [apply silent_print | exact Hnil' | intros _].
    apply sends_within_silent_bind; [apply silent_lift | exact Hnil' | intros eth_text].
    do 2 (apply sends_within_silent_bind; [apply silent_print | exact Hnil' | intros _]).
    apply sends_within_silent_bind;
      [apply silent_perform; reflexivity | exact Hnil' | intros _].
    apply sends_within_silent_bind; [apply silent_print | exact Hnil' | intros _].
    intros st4. rewrite sends_bind.
    assert (Htail : match transfer_all_tokens st4 with
                    | (Done a, st5, _) => sends (snd (after_sweep a st5))
                    | _ => []
                    end = []).
    { destruct (transfer_all_tokens st4) as [[o st5] t5].
      destruct o; [apply silent_after_sweep | reflexivity | reflexivity]. }
    rewrite Htail, app_nil_r.
    exact (transfer_all_tokens_sends st4).
Qed.

(** X3.  Whatever the node answers, the signatures and broadcasts of one
    cycle form an initial part of: the funding signed under the Funder's
    key, its broadcast, the sweep signed under the Holder's key, its
    broadcast.  So a cycle signs at most two transactions, the funding
    first; a broadcast always carries the payload signed just before it;
    and the sweep is signed only after the broadcast of the funding
    returned a hash.  (A signature left without its broadcast is what a
    CTRL+C between the two would leave.) *)
Theorem cycle_sends_funding_then_sweep st :
  exists tx r tx' r' rest,
    (signed_and_broadcast tx private_key2 r
     ++ signed_and_broadcast tx' private_key1 r')%list
    = (sends (snd (execute_transfer_cycle st)) ++ rest)%list
    /\ (In (Sign tx' private_key1) (sends (snd (execute_transfer_cycle st))) ->
        exists h, r = Returns h).
Proof.
  set (blank := mk_tx "" 0 0 0 0 0 None).
  destruct (cycle_sends_cases st)
    as [E | [(tx & r & E) | (tx & h & tx' & r' & E)]]; rewrite E.
  - exists blank, Sigint, blank, Sigint. eexists. split; [reflexivity |].
    intros [].
  - exists tx, r, blank, Sigint, (signed_and_broadcast blank private_key1 Sigint).
    split; [reflexivity |].
    intros [H | [H | []]]; exfalso; [| discriminate H].
    injection H as _ K. discriminate K.
  - exists tx, (Returns h), tx', r', []. split.
    + now rewrite app_nil_r.
    + intros _. exists h. reflexivity.
Qed.

(** *** A cycle the Funder cannot pay for *)

Lemma send_gas_fee_short st g b w1 w2 :
  respond Z eth_gas_price (node st) = (Returns g, w1) ->
  respond Z (eth_get_balance address2) w1 = (Returns b, w2) ->
  0 <= b < 150000 * g ->
  150000 * g < 2 ^ 256 ->
  exists deposit total current,
    format_eth_amount (150000 * g - b) 8 = Done deposit
    /\ format_eth_amount (150000 * g) 8 = Done total
    /\ format_eth_amount b 8 = Done current
    /\ send_gas_fee st
       = (Raised (mk_exn ValueError
                    (nl ++ "Saldo ETH tidak cukup. Deposit minimal " ++ deposit
                     ++ " ETH ke address:" ++ nl ++ address2 ++ nl
                     ++ "Total dibutuhkan: " ++ total ++ " ETH" ++ nl
                     ++ "Saldo saat ini: " ++ current ++ " ETH")),
          mk_state w2 (running st),
          [Io eth_gas_price (Returns g); Io (eth_get_balance address2) (Returns b)]).
Proof.
  intros Hg Hb Hlt Hmax.
  destruct (format_eth_amount_uint256 (150000 * g - b) 8 ltac:(lia)) as [deposit Hd].
  destruct (format_eth_amount_uint256 (150000 * g) 8 ltac:(lia)) as [total Ht].
  destruct (format_eth_amount_uint256 b 8 ltac:(lia)) as [current Hc].
  exists deposit, total, current. repeat (split; [assumption |]).
  unfold send_gas_fee, estimate_gas_cost. cbv zeta.
  rewrite (bind_perform _ _ _ _ _ Hg).
  rewrite (bind_perform _ _ (mk_state w1 (running st)) _ _ Hb).
  replace (b <? 150000 * g) with true by (symmetry; apply Z.ltb_lt; lia).
  rewrite Hd, Ht, Hc. reflexivity.
Qed.

(** X4.  When the guard reads a positive Holder balance but the Funder's
    balance [b] is below [150000 * g] (amounts in the uint256 range), the
    cycle stops at the balance check: after the report, the guard's read
    and the two reads of [send_gas_fee], it prints the shortfall message
    after the cross mark and returns normally.  Nothing is signed or
    broadcast: the Holder's tokens stay where they are. *)
Theorem cycle_with_insufficient_funds st st1 t1 held w2 g w3 b w4 :
  print_balance_info st = (Done tt, st1, t1) ->
  respond Z (call_balanceOf TOKEN_ADDRESS address1) (node st1) = (Returns held, w2) ->
  0 < held ->
  respond Z eth_gas_price w2 = (Returns g, w3) ->
  respond Z (eth_get_balance address2) w3 = (Returns b, w4) ->
  0 <= b < 150000 * g ->
  150000 * g < 2 ^ 256 ->
  exists deposit total current,
    format_eth_amount (150000 * g - b) 8 = Done deposit
    /\ format_eth_amount (150000 * g) 8 = Done total
    /\ format_eth_amount b 8 = Done current
    /\ execute_transfer_cycle st
       = (Done tt, mk_state w4 (running st1),
          (cycle_heading ++ t1
           ++ [Io (call_balanceOf TOKEN_ADDRESS address1) (Returns held);
               Out ("[1/3] Mengirim gas fee dari private_key2 ke private_key1..." ++ nl);
               Io eth_gas_price (Returns g);
               Io (eth_get_balance address2) (Returns b);
               Out ((nl ++ glyph_cross ++ " ERROR: "
                     ++ nl ++ "Saldo ETH tidak cukup. Deposit minimal " ++ deposit
                     ++ " ETH ke address:" ++ nl ++ address2 ++ nl
                     ++ "Total dibutuhkan: " ++ total ++ " ETH" ++ nl
                     ++ "Saldo saat ini: " ++ current ++ " ETH") ++ nl)])%list)
    /\ sends (snd (execute_transfer_cycle st)) = [].
Proof.
  intros Hreport Hguard Hpos Hg Hb Hlt Hmax.
  destruct (send_gas_fee_short (mk_state w2 (running st1)) g b w3 w4 Hg Hb Hlt Hmax)
    as (deposit & total & current & Hd & Ht & Hc & Hfund).
  exists deposit, total, current. repeat (split; [assumption |]).
  assert (Hbody : transfer_cycle_body st
                  = (Raised (mk_exn ValueError
                               (nl ++ "Saldo ETH tidak cukup. Deposit minimal " ++ deposit
                                ++ " ETH ke address:" ++ nl ++ address2 ++ nl
                                ++ "Total dibutuhkan: " ++ total ++ " ETH" ++ nl
                                ++ "Saldo saat ini: " ++ current ++ " ETH")),
                     mk_state w4 (running st1),
                     (cycle_heading ++ t1
                      ++ [Io (call_balanceOf TOKEN_ADDRESS address1) (Returns held);
                          Out ("[1/3] Mengirim gas fee dari private_key2 ke private_key1..."
                               ++ nl);
                          Io eth_gas_price (Returns g);
                          Io (eth_get_balance address2) (Returns b)])%list)).
  { unfold transfer_cycle_body, get_token_balance.
    rewrite !bind_print.
    rewrite (bind_Done _ _ _ _ _ _ Hreport).
    rewrite (bind_perform _ _ _ _ _ Hguard).
    replace (0 <? held) with true by (symmetry; apply Z.ltb_lt; exact Hpos).
    rewrite bind_print.
    rewrite (bind_Raised _ _ _ _ _ _ Hfund).
    cbn [prepend running]. reflexivity. }
  assert (E := cycle_catches _ _ _ _ Hbody).
  unfold error_label in E. cbn [exn_type exn_str] in E.
  rewrite <- !app_assoc in E. cbn [app] in E.
  split.
  - rewrite E. reflexivity.
  - rewrite E. cbn [snd]. rewrite !sends_app.
    pose proof (print_balance_info_silent st) as Hsil. rewrite Hreport in Hsil.
    cbn [snd] in Hsil. rewrite Hsil. reflexivity.
Qed.

(** *** CTRL+C *)

Lemma halting_ret {A : Type} (a : A) : halting (ret a).
Proof. intros st H. cbn. auto. Qed.

Lemma halting_raise {A : Type} (e : exn) : halting (raise e : M A).
Proof. intros st H. cbn. auto. Qed.

Lemma halting_lift {A : Type} (o : outcome A) : no_exit o -> halting (lift o).
Proof. intros Ho st H. unfold lift. destruct o; cbn in *; auto. contradiction. Qed.

Lemma halting_print_end (text end_ : string) : halting (print_end text end_).
Proof. intros st H. cbn. auto. Qed.

Lemma halting_print (text : string) : halting (print text).
Proof. apply halting_print_end. Qed.

Lemma halting_sign tx key : halting (sign_transaction tx key).
Proof. intros st H. cbn. auto. Qed.

Lemma halting_get_running : halting get_running.
Proof. intros st H. cbn. auto. Qed.

Lemma halting_perform {X : Type} (op : io X) : halting (perform op).
Proof.
  intros st H. unfold perform. destruct (respond X op (node st)) as [r w].
  destruct r; [cbn; auto | cbn; auto |].
  rewrite signal_handler_run. cbn [prepend app halted running].
  repeat split. exists X, op, []. split; reflexivity.
Qed.

Lemma halted_prepend {A : Type} (t : list event) (r : outcome A * state * list event) :
  interrupted t = false -> halted r -> halted (prepend t r).
Proof.
  intros Ht. destruct r as [[o st] t']. unfold halted, prepend.
  destruct o.
  - rewrite interrupted_app, Ht. auto.
  - rewrite interrupted_app, Ht. auto.
  - intros (Hc & Hrun & X & op & t0 & -> & Hint).
    repeat split; try assumption.
    exists X, op, (t ++ t0)%list. split; [apply app_assoc |].
    now rewrite interrupted_app, Ht.
Qed.

Lemma halting_bind {A B : Type} (m : M A) (k : A -> M B) :
  halting m -> (forall a, halting (k a)) -> halting (bind m k).
Proof.
  intros Hm Hk st H. unfold bind. specialize (Hm st H).
  destruct (m st) as [[o st1] t1]. destruct o; cbn in Hm; try exact Hm.
  destruct Hm as [Hrun Hint]. apply halted_prepend; [exact Hint |].
  apply Hk, Hrun.
Qed.

Lemma halting_try_except {A : Type} (body : M A) (handler : exn -> M A) :
  halting body -> (forall e, halting (handler e)) -> halting (try_except body handler).
Proof.
  intros Hb Hh st H. unfold try_except. specialize (Hb st H).
  destruct (body st) as [[o st1] t1]. destruct o; cbn in Hb; try exact Hb.
  destruct Hb as [Hrun Hint]. apply halted_prepend; [exact Hint |].
  apply Hh, Hrun.
Qed.

Lemma halting_for_each (items : list Z) (body : Z -> M bool) :
  (forall i, halting (body i)) -> halting (for_each items body).
Proof.
  intros Hbody. induction items as [| i rest IH]; cbn [for_each].
  - apply halting_ret.
  - apply halting_bind; [apply Hbody |]. intros [|]; [apply halting_ret | exact IH].
Qed.

Ltac halting_step :=
  first
    [ apply halting_bind; [| intros ?]
    | apply halting_perform
    | apply halting_print
    | apply halting_print_end
    | apply halting_sign
    | apply halting_ret
    | apply halting_raise
    | apply halting_get_running
    | apply halting_lift; first [ apply format_eth_amount_no_exit
                                | apply format_token_amount_no_exit ]
    | match goal with
      | |- halting (if ?c then _ else _) => destruct c
      | |- halting (let '(_, _) := ?p in _) => destruct p
      | |- halting (match ?o with Some _ => _ | None => _ end) => destruct o
      end ].

Lemma halting_execute_transfer_cycle : halting execute_transfer_cycle.
Proof.
  apply halting_try_except.
  - unfold transfer_cycle_body, print_balance_info, send_gas_fee, transfer_all_tokens,
      get_token_symbol, get_token_balance.
    cbv zeta. repeat halting_step.
  - intros e. unfold transfer_cycle_handler. destruct (exn_type e); apply halting_print.
Qed.

Lemma halting_main_loop (fuel : nat) (c : Z) : halting (main_loop fuel c).
Proof.
  revert c. induction fuel as [| fuel IH]; intros c; cbn [main_loop].
  - apply halting_ret.
  - cbv zeta.
    repeat first
      [ apply IH
      | apply halting_execute_transfer_cycle
      | apply halting_for_each; intros ?
      | halting_step ].
Qed.

(** In the model, where CTRL+C arrives during requests only, a run of
    the program started with [running] set is halted. *)
Lemma halting_main (fuel : nat) : halting (main fuel).
Proof.
  unfold main.
  repeat first [apply halting_main_loop | halting_step].
Qed.

(** X6.  A run of the program started with [running] set that ends by
    [sys.exit] ends with code 0, [running] cleared, and the handler's
    line as the last event: nothing is requested, signed, broadcast or
    printed after it.  A run that ends in any other way leaves [running]
    set. *)
Theorem interrupt_ends_the_run (fuel : nat) st :
  running st = true ->
  match main fuel st with
  | (Exited code, st1, t) =>
      code = 0 /\ running st1 = false
      /\ exists t', t = (t' ++ [Out (stop_line ++ nl)])%list
  | (_, st1, _) => running st1 = true
  end.
Proof.
  intros Hrun. pose proof (halting_main fuel st Hrun) as H.
  destruct (main fuel st) as [[o st1] t]. destruct o as [x | e | code]; cbn [halted] in H.
  - exact (proj1 H).
  - exact (proj1 H).
  - destruct H as (Hc & Hr & X & op & t' & -> & _).
    repeat split; try assumption.
    exists (t' ++ [Io op Sigint])%list. rewrite <- app_assoc. reflexivity.
Qed.

(** *** How the program ends *)

Lemma program_end_prepend (t : list event) r :
  program_end r -> program_end (prepend t r).
Proof.
  destruct r as [[o st] t0]. unfold program_end, prepend.
  destruct o as [[n |] | e | code]; try (intros H; exact H).
  intros [t' ->]. exists (t ++ t')%list. apply app_assoc.
Qed.

Lemma main_loop_program_end (fuel : nat) (c : Z) st :
  running st = true -> program_end (main_loop fuel c st).
Proof.
  revert c st. induction fuel as [| fuel IH]; intros c st Hrun.
  - exact Hrun.
  - cbn [main_loop]. cbv zeta.
    rewrite (bind_Done _ _ _ _ _ _ (get_running_run st)), Hrun, prepend_nil.
    rewrite bind_print. apply program_end_prepend.
    pose proof (cycle_ends st Hrun) as Hcycle.
    destruct (execute_transfer_cycle st) as [[o st1] t1] eqn:Ecycle.
    destruct o as [[] | e | code]; [| contradiction |].
    2: { destruct Hcycle as (-> & _).
         rewrite (bind_Exited _ _ _ _ _ _ Ecycle). reflexivity. }
    destruct Hcycle as [Hrun1 _].
    rewrite (bind_Done _ _ _ _ _ _ Ecycle). apply program_end_prepend.
    rewrite (bind_Done _ _ _ _ _ _ (get_running_run st1)), Hrun1, prepend_nil.
    rewrite bind_assoc, bind_print. apply program_end_prepend.
    change (range 1 0 (-1)) with [1]. cbn [for_each].
    rewrite !bind_assoc.
    rewrite (bind_Done _ _ _ _ _ _ (get_running_run st1)), Hrun1, prepend_nil.
    cbn [negb]. rewrite !bind_assoc, bind_print_end, !bind_assoc.
    destruct (respond unit (time_sleep 1) (node st1)) as [r w] eqn:Es.
    destruct r as [[] | e | ].
    + rewrite (bind_perform _ _ _ _ _ Es), ?bind_assoc, bind_ret, bind_ret.
      rewrite !prepend_prepend. apply program_end_prepend.
      apply IH. exact Hrun1.
    + rewrite (bind_Raised _ _ _ _ _ _ (perform_Throws _ _ _ _ Es)).
      cbn [prepend program_end app]. exists []. reflexivity.
    + rewrite (bind_Exited _ _ _ _ _ _ (perform_Sigint _ _ _ Es)). reflexivity.
Qed.

(** X5.  The loop never finds [running] cleared: a run of the program started
    with [running] set never leaves the loop by its condition, so the
    farewell line after the loop is never reached.  The run ends by
    [sys.exit(0)], or by an exception, and the only exception that
    escapes is one raised by the [time.sleep] between two cycles, right
    after the countdown line. *)
Theorem loop_never_exits_by_its_condition (fuel : nat) st :
  running st = true ->
  match main fuel st with
  | (Done (Some _), _, _) => False
  | (Done None, st1, _) => running st1 = true
  | (Raised e, _, t) =>
      exists t',
        t = (t' ++ [Out ("  Siklus berikutnya dalam 1 detik..." ++ cr);
                    Io (time_sleep 1) (Throws e)])%list
  | (Exited code, _, _) => code = 0
  end.
Proof.
  intros Hrun. unfold main. rewrite !bind_print.
  pose proof (main_loop_program_end fuel 0 st Hrun) as H.
  destruct (main_loop fuel 0 st) as [[o st1] t1] eqn:E.
  destruct o as [[n |] | e | code]; cbn [program_end] in H.
  - contradiction.
  - rewrite (bind_Done _ _ _ _ _ _ E). exact H.
  - rewrite (bind_Raised _ _ _ _ _ _ E). cbn [prepend].
    destruct H as [t' ->]. eexists. rewrite !app_assoc. reflexivity.
  - rewrite (bind_Exited _ _ _ _ _ _ E). exact H.
Qed.

(** *** What the formatters show *)

Lemma str_of_nonneg_inj (m n : Z) :
  0 <= m -> 0 <= n -> str_of_nonneg m = str_of_nonneg n -> m = n.
Proof.
  intros Hm Hn H. unfold str_of_nonneg in H.
  assert (E : Some (N.to_uint (Z.to_N m)) = Some (N.to_uint (Z.to_N n))).
  { rewrite <- !NilEmpty.usu. now rewrite H. }
  injection E as E. apply DecimalN.Unsigned.to_uint_inj in E. lia.
Qed.

Lemma append_last_inj (s s' : string) (c c' : ascii) :
  s ++ String c "" = s' ++ String c' "" -> s = s' /\ c = c'.
Proof.
  revert s'. induction s as [| x s IH]; intros [| y s'] H; cbn in H.
  - injection H as ->. split; reflexivity.
  - injection H as -> H. destruct s'; discriminate.
  - injection H as -> H. destruct s; discriminate.
  - injection H as -> H. destruct (IH _ H) as [-> ->]. split; reflexivity.
Qed.

Lemma str_repeat_last (c : string) (n : nat) : str_repeat c (S n) = str_repeat c n ++ c.
Proof.
  induction n as [| n IH]; cbn [str_repeat].
  - now rewrite app_empty_r.
  - cbn [str_repeat] in IH. rewrite app_assoc_str. f_equal. exact IH.
Qed.

Lemma digit_zero (k : nat) : (k < 10)%nat -> ascii_of_nat (48 + k) = "0"%char -> k = 0%nat.
Proof.
  intros H E. do 10 (destruct k as [| k]; [first [reflexivity | discriminate] |]). lia.
Qed.

(** The digits are all zero only for the number zero. *)
Lemma low_digits_zero (w : nat) (n : Z) :
  0 <= n < 10 ^ Z.of_nat w -> low_digits w n = str_repeat "0" w -> n = 0.
Proof.
  revert n. induction w as [| w IH]; intros n Hn H.
  - change (10 ^ Z.of_nat 0) with 1 in Hn. lia.
  - rewrite str_repeat_last in H. cbn [low_digits] in H.
    apply append_last_inj in H. destruct H as [Hhigh Hlast].
    pose proof (Z.mod_pos_bound n 10 ltac:(lia)) as Hr.
    apply digit_zero in Hlast; [| lia].
    rewrite Nat2Z.inj_succ, Z.pow_succ_r in Hn by lia.
    assert (Hq : n / 10 = 0).
    { apply IH; [| exact Hhigh]. split; [apply Z.div_pos; lia |].
      apply Z.div_lt_upper_bound; lia. }
    pose proof (Z.div_mod n 10 ltac:(lia)). lia.
Qed.

Lemma endswith_zero_fraction_iff (n : Z) :
  0 <= n ->
  endswith (fixed_point n 8) ".00000000" = (n mod 10 ^ 8 =? 0).
Proof.
  intros Hn. unfold fixed_point. cbv zeta.
  change (10 ^ Z.of_nat 8) with (10 ^ 8).
  pose proof (Z.mod_pos_bound n (10 ^ 8) ltac:(reflexivity)) as Hr.
  destruct (n mod 10 ^ 8 =? 0) eqn:E.
  - apply Z.eqb_eq in E. rewrite E.
    change (low_digits 8 0) with "00000000".
    apply endswith_app.
  - apply Z.eqb_neq in E.
    destruct (endswith _ _) eqn:Hend; [| reflexivity].
    exfalso. apply E.
    change ("." ++ low_digits 8 (n mod 10 ^ 8))
      with (String "." (low_digits 8 (n mod 10 ^ 8))) in Hend.
    apply endswith_zero_fraction in Hend; [| apply low_digits_no_point].
    apply (low_digits_zero 8); [exact Hr | exact Hend].
Qed.
(** The two stripping lines, on a count [n] of units of [10^-8] rendered
    with eight places: the fraction is dropped exactly when it is zero. *)
Lemma stripped_units (n : Z) :
  0 <= n ->
  (if str_contains "." (fixed_point n 8)
   then if endswith (fixed_point n 8) ".00000000"
        then rstrip "." (rstrip "0" (fixed_point n 8))
        else fixed_point n 8
   else fixed_point n 8)
  = if n mod 10 ^ 8 =? 0 then str_of_nonneg (n / 10 ^ 8) else fixed_point n 8.
Proof.
  intros Hn. rewrite <- (endswith_zero_fraction_iff n Hn).
  unfold fixed_point. cbv zeta. change (10 ^ Z.of_nat 8) with (10 ^ 8).
  change ("." ++ low_digits 8 (n mod 10 ^ 8))
    with (String "." (low_digits 8 (n mod 10 ^ 8))).
  apply strip_rule; [apply str_of_nonneg_no_point | apply low_digits_no_point].
Qed.

(** [format_eth_amount] at eight places, on a uint256 amount: the amount
    is rounded to a count of units of [10^-8], half to even. *)
Lemma format_eth_amount_units (a : Z) :
  0 <= a < 2 ^ 256 ->
  format_eth_amount a 8
  = Done (if div_half_even a (10 ^ 10) mod 10 ^ 8 =? 0
          then str_of_nonneg (div_half_even a (10 ^ 10) / 10 ^ 8)
          else fixed_point (div_half_even a (10 ^ 10)) 8).
Proof.
  intros Ha. unfold format_eth_amount. rewrite from_wei_uint256 by exact Ha.
  cbn [outcome_bind]. cbv zeta. unfold format_decimal_f. cbn [d_neg d_coeff d_exp].
  replace (-18 + Z.of_nat 8) with (-10) by reflexivity.
  replace (Z.max 0 (-10)) with 0 by reflexivity.
  replace (Z.max 0 (- -10)) with 10 by reflexivity.
  rewrite Z.pow_0_r, Z.mul_1_r.
  change (sign_prefix false ++ fixed_point (div_half_even a (10 ^ 10)) 8)
    with (fixed_point (div_half_even a (10 ^ 10)) 8).
  f_equal. apply stripped_units.
  pose proof (div_half_even_bounds a (10 ^ 10) ltac:(lia) ltac:(reflexivity)) as B.
  pose proof (Z.div_pos a (10 ^ 10) ltac:(lia) ltac:(reflexivity)). lia.
Qed.

(** X7.  A displayed [0] is not an empty wallet: [format_eth_amount] shows
    ["0"] exactly for the amounts from 0 to 5000000000 wei (half of the
    last displayed digit, the tie rounding down to the even 0).  Outside
    of uint256 it shows nothing: it raises. *)
Theorem format_eth_amount_shows_zero (a : Z) :
  format_eth_amount a 8 = Done "0" <-> 0 <= a <= 5000000000.
Proof.
  split.
  - intros H.
    assert (Ha : 0 <= a < 2 ^ 256).
    { unfold format_eth_amount, from_wei in H.
      destruct (a <? 0) eqn:E1; [discriminate |].
      destruct (2 ^ 256 - 1 <? a) eqn:E2; [discriminate |].
      apply Z.ltb_ge in E1, E2. lia. }
    rewrite (format_eth_amount_units a Ha) in H.
    pose proof (div_half_even_bounds a (10 ^ 10) ltac:(lia) ltac:(reflexivity)) as B.
    pose proof (Z.div_pos a (10 ^ 10) ltac:(lia) ltac:(reflexivity)) as Q.
    pose proof (div_half_even_error a (10 ^ 10) ltac:(reflexivity)) as R.
    set (n := div_half_even a (10 ^ 10)) in *.
    assert (H' : (if n mod 10 ^ 8 =? 0 then str_of_nonneg (n / 10 ^ 8)
                  else fixed_point n 8) = "0")
      by (injection H as H0; exact H0).
    clear H. rename H' into H.
    destruct (n mod 10 ^ 8 =? 0) eqn:E.
    + apply Z.eqb_eq in E.
      change "0" with (str_of_nonneg 0) in H.
      apply str_of_nonneg_inj in H; [| apply Z.div_pos; [lia | reflexivity] | lia].
      pose proof (Z.div_mod n (10 ^ 8) ltac:(discriminate)) as D.
      rewrite H, E in D. change (10 ^ 10) with 10000000000 in R. lia.
    + exfalso.
      assert (C : str_contains "." (fixed_point n 8) = false) by (rewrite H; reflexivity).
      unfold fixed_point in C. cbv zeta in C.
      rewrite str_contains_app in C. apply orb_false_elim in C. destruct C as [_ C].
      discriminate C.
  - intros Ha.
    rewrite format_eth_amount_units
      by (split; [lia |]; apply Z.le_lt_trans with 5000000000; [lia | reflexivity]).
    assert (E : div_half_even a (10 ^ 10) = 0).
    { unfold div_half_even. change (10 ^ 10) with 10000000000.
      rewrite Z.div_small, Z.mod_small by lia.
      destruct (2 * a <? 10000000000); [reflexivity |].
      destruct (10000000000 <? 2 * a) eqn:C; [apply Z.ltb_lt in C; lia | reflexivity]. }
    rewrite E. reflexivity.
Qed.

(** X8.  An amount that is a whole number [k] of units of [10^-8], below
    [2^52] of them, is shown exactly by both formatters: as the integer
    [k / 10^8] when the fraction is zero, else with a point and the eight
    digits of [k mod 10^8].  The rounding of the float division does not
    show. *)
Theorem amounts_of_eight_places_are_exact (k : Z) :
  0 <= k < 2 ^ 52 ->
  format_token_amount (k * 10 ^ 10) 8
  = Done (if k mod 10 ^ 8 =? 0 then str_of_nonneg (k / 10 ^ 8) else fixed_point k 8)
  /\ format_eth_amount (k * 10 ^ 10) 8
     = Done (if k mod 10 ^ 8 =? 0 then str_of_nonneg (k / 10 ^ 8) else fixed_point k 8).
Proof.
  intros Hk.
  assert (Hunits : div_half_even (k * 10 ^ 10) (10 ^ 10) = k).
  { apply div_half_even_unique; [reflexivity |].
    change (10 ^ 10) with 10000000000. lia. }
  assert (Hrange : 0 <= k * 10 ^ 10 < 2 ^ 256).
  { change (10 ^ 10) with 10000000000. split; [lia |].
    apply Z.lt_trans with (2 ^ 52 * 10000000000); [lia | reflexivity]. }
  assert (Heth : format_eth_amount (k * 10 ^ 10) 8
                 = Done (if k mod 10 ^ 8 =? 0 then str_of_nonneg (k / 10 ^ 8)
                         else fixed_point k 8)).
  { rewrite (format_eth_amount_units _ Hrange), Hunits. reflexivity. }
  split; [| exact Heth].
  destruct (Z.eq_dec k 0) as [-> | Hnz]; [vm_compute; reflexivity |].
  destruct (true_divide_uint256 _ Hrange) as [q Hq].
  assert (Hmargin : k * 10 ^ 10
                    < 2 ^ 52 * Z.abs (10 ^ 10 - 2 * ((k * 10 ^ 10) mod 10 ^ 10))).
  { rewrite Z.mod_mul by discriminate. change (10 ^ 10) with 10000000000.
    change (Z.abs (10000000000 - 2 * 0)) with 10000000000. lia. }
  assert (Hpos : 0 < k * 10 ^ 10) by (change (10 ^ 10) with 10000000000; lia).
  destruct (float_units_exact _ q Hpos Hmargin Hq) as [Hneg Hfloat].
  unfold format_token_amount. rewrite Hq. cbn [outcome_bind]. cbv zeta.
  unfold format_float_f. rewrite Hneg, Hfloat, Hunits.
  change (sign_prefix false ++ fixed_point k 8) with (fixed_point k 8).
  f_equal. apply stripped_units. lia.
Qed.

(** *** The balance report *)

Lemma format_token_amount_uint256 (a : Z) (p : nat) :
  0 <= a < 2 ^ 256 -> exists text, format_token_amount a p = Done text.
Proof.
  intros H. unfold format_token_amount.
  destruct (true_divide_uint256 a H) as [q ->].
  cbn [outcome_bind]. eexists. reflexivity.
Qed.

(** X9.  When its five reads return (the symbol, the token balances of the
    Holder and of the Funder, then their native balances, all within
    uint256), [print_balance_info] makes exactly these five requests, in
    this order, before it prints anything; then it prints its eleven
    lines, the balances as [format_token_amount] and [format_eth_amount]
    render them, and returns. *)
Theorem print_balance_info_reports st symbol held1 held2 eth_1 eth_2 w1 w2 w3 w4 w5 :
  respond string (call_symbol TOKEN_ADDRESS) (node st) = (Returns symbol, w1) ->
  respond Z (call_balanceOf TOKEN_ADDRESS address1) w1 = (Returns held1, w2) ->
  respond Z (call_balanceOf TOKEN_ADDRESS address2) w2 = (Returns held2, w3) ->
  respond Z (eth_get_balance address1) w3 = (Returns eth_1, w4) ->
  respond Z (eth_get_balance address2) w4 = (Returns eth_2, w5) ->
  0 <= held1 < 2 ^ 256 -> 0 <= held2 < 2 ^ 256 ->
  0 <= eth_1 < 2 ^ 256 -> 0 <= eth_2 < 2 ^ 256 ->
  exists token1 eth1 token2 eth2,
    format_token_amount held1 8 = Done token1
    /\ format_eth_amount eth_1 8 = Done eth1
    /\ format_token_amount held2 8 = Done token2
    /\ format_eth_amount eth_2 8 = Done eth2
    /\ print_balance_info st
       = (Done tt, mk_state w5 (running st),
          [Io (call_symbol TOKEN_ADDRESS) (Returns symbol);
           Io (call_balanceOf TOKEN_ADDRESS address1) (Returns held1);
           Io (call_balanceOf TOKEN_ADDRESS address2) (Returns held2);
           Io (eth_get_balance address1) (Returns eth_1);
           Io (eth_get_balance address2) (Returns eth_2);
           Out ((nl ++ banner) ++ nl);
           Out (center "TOKEN BALANCE" 50 ++ nl);
           Out (banner ++ nl);
           Out (("Token Symbol: " ++ symbol) ++ nl);
           Out (("Address1 [" ++ address1 ++ "]:") ++ nl);
           Out (("  " ++ glyph_bullet ++ " Token: " ++ token1 ++ " " ++ symbol) ++ nl);
           Out (("  " ++ glyph_bullet ++ " ETH:   " ++ eth1 ++ " ETH") ++ nl);
           Out (("Address2 [" ++ address2 ++ "]:") ++ nl);
           Out (("  " ++ glyph_bullet ++ " Token: " ++ token2 ++ " " ++ symbol) ++ nl);
           Out (("  " ++ glyph_bullet ++ " ETH:   " ++ eth2 ++ " ETH") ++ nl);
           Out ((banner ++ nl) ++ nl)]).
Proof.
  intros Hs H1 H2 H3 H4 R1 R2 R3 R4.
  destruct (format_token_amount_uint256 held1 8 R1) as [token1 F1].
  destruct (format_eth_amount_uint256 eth_1 8 R3) as [eth1 F2].
  destruct (format_token_amount_uint256 held2 8 R2) as [token2 F3].
  destruct (format_eth_amount_uint256 eth_2 8 R4) as [eth2 F4].
  exists token1, eth1, token2, eth2. repeat (split; [assumption |]).
  unfold print_balance_info, get_token_symbol, get_token_balance.
  rewrite (bind_perform _ _ _ _ _ Hs).
  rewrite (bind_perform _ _ (mk_state w1 (running st)) _ _ H1).
  rewrite (bind_perform _ _ (mk_state w2 (running st)) _ _ H2).
  rewrite (bind_perform _ _ (mk_state w3 (running st)) _ _ H3).
  rewrite (bind_perform _ _ (mk_state w4 (running st)) _ _ H4).
  cbn [running].
  rewrite !bind_print, F1, bind_lift_Done.
  rewrite !bind_print, F2, bind_lift_Done.
  rewrite !bind_print, F3, bind_lift_Done.
  rewrite !bind_print, F4, bind_lift_Done.
  rewrite !bind_print.
  reflexivity.
Qed.

(** *** The balance check of the funding *)



(** *** The loop, one iteration at a time *)





(** *** The digits [format_token_amount] shows *)










End Script.

(** ** Runs against the simulated node

    Each run instantiates one of the properties above on the node [sim],
    with the keys standing for their addresses, and evaluates its
    premises there. *)

(** C9 as first stated, for every amount, fails: the two formatters
    differ on a tie of the eighth decimal.  The double
    nearest to 5 * 10^9 / 10^18 lies just above the tie and rounds up, the
    exact decimal sits on the tie and rounds to even. *)
Lemma formatters_differ_on_a_tie :
  format_token_amount 5000000000 8 = Done "0.00000001"
  /\ format_eth_amount 5000000000 8 = Done "0"
  /\ format_token_amount 5000000000 8 <> format_eth_amount 5000000000 8.
Proof.
  assert (Ht : format_token_amount 5000000000 8 = Done "0.00000001")
    by (vm_compute; reflexivity).
  assert (He : format_eth_amount 5000000000 8 = Done "0")
    by (vm_compute; reflexivity).
  repeat split; try assumption. rewrite Ht, He. discriminate.
Qed.

(** C9, off the ties: one and a half tokens. *)
Lemma formatters_agree_off_ties_witness :
  0 <= 1500000000000000000
  /\ 1500000000000000000
     < 2 ^ 52 * Z.abs (10 ^ 10 - 2 * (1500000000000000000 mod 10 ^ 10))
  /\ format_token_amount 1500000000000000000 8
     = format_eth_amount 1500000000000000000 8.
Proof.
  assert (H0 : 0 <= 1500000000000000000) by (vm_compute; discriminate).
  assert (H1 : 1500000000000000000
               < 2 ^ 52 * Z.abs (10 ^ 10 - 2 * (1500000000000000000 mod 10 ^ 10)))
    by (vm_compute; reflexivity).
  exact (conj H0 (conj H1 (formatters_agree_off_ties 1500000000000000000 H0 H1))).
Defined.


(** C2 on a node whose Holder has no tokens. *)
Lemma transfer_all_tokens_empty_witness :
  sim_respond Z
    (call_balanceOf (TOKEN_ADDRESS sim_checksum) (address1 sim_from_key sim_checksum))
    (mk_sim (Returns 1000000) 0 [0] 0)
  = (Returns 0, mk_sim (Returns 1000000) 0 [0] 0)
  /\ transfer_all_tokens sim_from_key sim_checksum sim sim_respond
       (mk_state sim (mk_sim (Returns 1000000) 0 [0] 0) true)
     = (Raised (mk_exn ValueError "Saldo token kosong, tidak ada yang bisa ditransfer"),
        mk_state sim (mk_sim (Returns 1000000) 0 [0] 0) true,
        [Io (call_balanceOf (TOKEN_ADDRESS sim_checksum)
               (address1 sim_from_key sim_checksum)) (Returns 0)]).
Proof.
  split; [reflexivity |].
  apply (transfer_all_tokens_empty sim_from_key sim_checksum sim sim_respond
           (mk_state sim (mk_sim (Returns 1000000) 0 [0] 0) true)
           (mk_sim (Returns 1000000) 0 [0] 0)).
  reflexivity.
Defined.

(** C1 on a node whose Funder has no native balance. *)
Lemma send_gas_fee_insufficient_witness :
  sim_respond Z eth_gas_price (mk_sim (Returns 1000000) 0 [5] 0)
  = (Returns 1000000, mk_sim (Returns 1000000) 0 [5] 0)
  /\ sim_respond Z (eth_get_balance (address2 sim_from_key sim_checksum))
       (mk_sim (Returns 1000000) 0 [5] 0)
     = (Returns 0, mk_sim (Returns 1000000) 0 [5] 0)
  /\ 0 < 150000 * 1000000
  /\ exists e,
       send_gas_fee sim_from_key sim_checksum sim sim_respond
         (mk_state sim (mk_sim (Returns 1000000) 0 [5] 0) true)
       = (Raised e, mk_state sim (mk_sim (Returns 1000000) 0 [5] 0) true,
          [Io eth_gas_price (Returns 1000000);
           Io (eth_get_balance (address2 sim_from_key sim_checksum)) (Returns 0)])
       /\ exn_type e = ValueError.
Proof.
  split; [reflexivity |]. split; [reflexivity |]. split; [reflexivity |].
  destruct (send_gas_fee_insufficient sim_from_key sim_checksum sim sim_respond
              (mk_state sim (mk_sim (Returns 1000000) 0 [5] 0) true)
              1000000 0
              (mk_sim (Returns 1000000) 0 [5] 0) (mk_sim (Returns 1000000) 0 [5] 0)
              eq_refl eq_refl eq_refl)
    as (e & Hrun & _ & Htype & _).
  exists e. split; [exact Hrun | exact Htype].
Defined.

(** C3 on a node whose Funder holds one whole unit, at a gas price of 1000000. *)
Lemma send_gas_fee_funded_witness :
  sim_respond Z eth_gas_price (mk_sim (Returns 1000000) (10 ^ 18) [500] 0)
  = (Returns 1000000, mk_sim (Returns 1000000) (10 ^ 18) [500] 0)
  /\ 0 <= 1000000
  /\ sim_respond Z (eth_get_balance (address2 sim_from_key sim_checksum))
       (mk_sim (Returns 1000000) (10 ^ 18) [500] 0)
     = (Returns (10 ^ 18), mk_sim (Returns 1000000) (10 ^ 18) [500] 0)
  /\ 150000 * 1000000 <= 10 ^ 18
  /\ sim_respond Z (eth_get_transaction_count (address2 sim_from_key sim_checksum))
       (mk_sim (Returns 1000000) (10 ^ 18) [500] 0)
     = (Returns 0, mk_sim (Returns 1000000) (10 ^ 18) [500] 0)
  /\ 0 <= 0
  /\ sim_respond HexBytes
       (eth_send_raw_transaction
          (Serialized
             {| tx_to := address1 sim_from_key sim_checksum;
                tx_value := 150000 * 1000000;
                tx_gas := 21000;
                tx_gasPrice := 1000000;
                tx_nonce := 0;
                tx_chainId := 10;
                tx_data := None |}
             private_key2))
       (mk_sim (Returns 1000000) (10 ^ 18) [500] 0)
     = (Returns (mk_HexBytes "ab0"), mk_sim (Returns 1000000) (10 ^ 18) [500] 1)
  /\ send_gas_fee sim_from_key sim_checksum sim sim_respond
       (mk_state sim (mk_sim (Returns 1000000) (10 ^ 18) [500] 0) true)
     = (Done (mk_HexBytes "ab0", 150000 * 1000000),
        mk_state sim (mk_sim (Returns 1000000) (10 ^ 18) [500] 1) true,
        [Io eth_gas_price (Returns 1000000);
         Io (eth_get_balance (address2 sim_from_key sim_checksum)) (Returns (10 ^ 18));
         Io (eth_get_transaction_count (address2 sim_from_key sim_checksum)) (Returns 0);
         Sign {| tx_to := address1 sim_from_key sim_checksum;
                 tx_value := 150000 * 1000000;
                 tx_gas := 21000;
                 tx_gasPrice := 1000000;
                 tx_nonce := 0;
                 tx_chainId := 10;
                 tx_data := None |}
              private_key2;
         Io (eth_send_raw_transaction
               (Serialized
                  {| tx_to := address1 sim_from_key sim_checksum;
                     tx_value := 150000 * 1000000;
                     tx_gas := 21000;
                     tx_gasPrice := 1000000;
                     tx_nonce := 0;
                     tx_chainId := 10;
                     tx_data := None |}
                  private_key2))
            (Returns (mk_HexBytes "ab0"))]).
Proof.
  split; [reflexivity |]. split; [discriminate |]. split; [reflexivity |].
  split; [vm_compute; discriminate |]. split; [reflexivity |].
  split; [discriminate |]. split; [reflexivity |].
  apply (send_gas_fee_funded sim_from_key sim_checksum sim sim_respond
           (mk_state sim (mk_sim (Returns 1000000) (10 ^ 18) [500] 0) true)
           1000000 (10 ^ 18) 0 (mk_HexBytes "ab0")
           (mk_sim (Returns 1000000) (10 ^ 18) [500] 0)
           (mk_sim (Returns 1000000) (10 ^ 18) [500] 0)
           (mk_sim (Returns 1000000) (10 ^ 18) [500] 0)
           (mk_sim (Returns 1000000) (10 ^ 18) [500] 1));
    first [reflexivity | vm_compute; discriminate].
Defined.

(** C4 on a node whose Holder has 500 token units and has sent 7 transactions. *)
Lemma transfer_all_tokens_sweep_witness :
  sim_respond Z
    (call_balanceOf (TOKEN_ADDRESS sim_checksum) (address1 sim_from_key sim_checksum))
    (mk_sim (Returns 1000000) 0 [500] 7)
  = (Returns 500, mk_sim (Returns 1000000) 0 [500] 7)
  /\ 0 < 500 < 2 ^ 256
  /\ sim_respond Z eth_gas_price (mk_sim (Returns 1000000) 0 [500] 7)
     = (Returns 1000000, mk_sim (Returns 1000000) 0 [500] 7)
  /\ 0 <= 1000000
  /\ sim_respond Z (eth_get_transaction_count (address1 sim_from_key sim_checksum))
       (mk_sim (Returns 1000000) 0 [500] 7)
     = (Returns 7, mk_sim (Returns 1000000) 0 [500] 7)
  /\ 0 <= 7
  /\ sim_respond HexBytes
       (eth_send_raw_transaction
          (Serialized
             {| tx_to := TOKEN_ADDRESS sim_checksum;
                tx_value := 0;
                tx_gas := 150000;
                tx_gasPrice := 1000000;
                tx_nonce := 7;
                tx_chainId := 10;
                tx_data :=
                  Some (mk_call (TOKEN_ADDRESS sim_checksum) "transfer"
                          [abi_address (address2 sim_from_key sim_checksum);
                           abi_uint256 500]) |}
             private_key1))
       (mk_sim (Returns 1000000) 0 [500] 7)
     = (Returns (mk_HexBytes "ab7"), mk_sim (Returns 1000000) 0 [500] 8)
  /\ transfer_all_tokens sim_from_key sim_checksum sim sim_respond
       (mk_state sim (mk_sim (Returns 1000000) 0 [500] 7) true)
     = (Done (mk_HexBytes "ab7"),
        mk_state sim (mk_sim (Returns 1000000) 0 [500] 8) true,
        [Io (call_balanceOf (TOKEN_ADDRESS sim_checksum)
               (address1 sim_from_key sim_checksum)) (Returns 500);
         Io eth_gas_price (Returns 1000000);
         Io (eth_get_transaction_count (address1 sim_from_key sim_checksum)) (Returns 7);
         Sign {| tx_to := TOKEN_ADDRESS sim_checksum;
                 tx_value := 0;
                 tx_gas := 150000;
                 tx_gasPrice := 1000000;
                 tx_nonce := 7;
                 tx_chainId := 10;
                 tx_data :=
                   Some (mk_call (TOKEN_ADDRESS sim_checksum) "transfer"
                           [abi_address (address2 sim_from_key sim_checksum);
                            abi_uint256 500]) |}
              private_key1;
         Io (eth_send_raw_transaction
               (Serialized
                  {| tx_to := TOKEN_ADDRESS sim_checksum;
                     tx_value := 0;
                     tx_gas := 150000;
                     tx_gasPrice := 1000000;
                     tx_nonce := 7;
                     tx_chainId := 10;
                     tx_data :=
                       Some (mk_call (TOKEN_ADDRESS sim_checksum) "transfer"
                               [abi_address (address2 sim_from_key sim_checksum);
                                abi_uint256 500]) |}
                  private_key1))
            (Returns (mk_HexBytes "ab7"))]).
Proof.
  split; [reflexivity |]. split; [split; reflexivity |].
  split; [reflexivity |]. split; [discriminate |].
  split; [reflexivity |]. split; [discriminate |]. split; [reflexivity |].
  apply (transfer_all_tokens_sweep sim_from_key sim_checksum sim sim_respond
           (mk_state sim (mk_sim (Returns 1000000) 0 [500] 7) true)
           500 1000000 7 (mk_HexBytes "ab7")
           (mk_sim (Returns 1000000) 0 [500] 7)
           (mk_sim (Returns 1000000) 0 [500] 7)
           (mk_sim (Returns 1000000) 0 [500] 7)
           (mk_sim (Returns 1000000) 0 [500] 8));
    first [reflexivity | discriminate | split; reflexivity].
Defined.

(** C7 on a node whose Holder has no tokens. *)
Lemma cycle_nothing_to_transfer_witness :
  print_balance_info sim_from_key sim_checksum sim sim_respond
    (mk_state sim (mk_sim (Returns 1000000) (10 ^ 18) [0] 0) true)
  = (Done tt,
     mk_state sim (mk_sim (Returns 1000000) (10 ^ 18) [0] 0) true,
     snd (print_balance_info sim_from_key sim_checksum sim sim_respond
            (mk_state sim (mk_sim (Returns 1000000) (10 ^ 18) [0] 0) true)))
  /\ sim_respond Z
       (call_balanceOf (TOKEN_ADDRESS sim_checksum) (address1 sim_from_key sim_checksum))
       (mk_sim (Returns 1000000) (10 ^ 18) [0] 0)
     = (Returns 0, mk_sim (Returns 1000000) (10 ^ 18) [0] 0)
  /\ fst (execute_transfer_cycle sim_from_key sim_checksum sim sim_respond
            (mk_state sim (mk_sim (Returns 1000000) (10 ^ 18) [0] 0) true))
     = (Done tt, mk_state sim (mk_sim (Returns 1000000) (10 ^ 18) [0] 0) true)
  /\ sends (snd (execute_transfer_cycle sim_from_key sim_checksum sim sim_respond
                   (mk_state sim (mk_sim (Returns 1000000) (10 ^ 18) [0] 0) true)))
     = [].
Proof.
  assert (Hreport :
    print_balance_info sim_from_key sim_checksum sim sim_respond
      (mk_state sim (mk_sim (Returns 1000000) (10 ^ 18) [0] 0) true)
    = (Done tt,
       mk_state sim (mk_sim (Returns 1000000) (10 ^ 18) [0] 0) true,
       snd (print_balance_info sim_from_key sim_checksum sim sim_respond
              (mk_state sim (mk_sim (Returns 1000000) (10 ^ 18) [0] 0) true))))
    by (vm_compute; reflexivity).
  split; [exact Hreport |]. split; [reflexivity |].
  destruct (cycle_nothing_to_transfer sim_from_key sim_checksum sim sim_respond
              _ _ _ (mk_sim (Returns 1000000) (10 ^ 18) [0] 0) Hreport eq_refl)
    as [Hrun Hsends].
  split; [rewrite Hrun; reflexivity | exact Hsends].
Defined.

(** C8 on a node whose Holder has 500 token units and whose Funder can pay:
    the cycle sends the funding, then the sweep. *)
Lemma cycle_order_witness :
  let w0 := mk_sim (Returns 1000000) (10 ^ 18) [500] 0 in
  let w1 := mk_sim (Returns 1000000) (10 ^ 18) [500] 1 in
  let w2 := mk_sim (Returns 1000000) (10 ^ 18) [500] 2 in
  let report := print_balance_info sim_from_key sim_checksum sim sim_respond in
  let fund := send_gas_fee sim_from_key sim_checksum sim sim_respond in
  let sweep := transfer_all_tokens sim_from_key sim_checksum sim sim_respond in
  let holder := address1 sim_from_key sim_checksum in
  let funder := address2 sim_from_key sim_checksum in
  let token := TOKEN_ADDRESS sim_checksum in
  report (mk_state sim w0 true)
  = (Done tt, mk_state sim w0 true, snd (report (mk_state sim w0 true)))
  /\ sim_respond Z (call_balanceOf token holder) w0 = (Returns 500, w0)
  /\ 0 < 500
  /\ fund (mk_state sim w0 true)
     = (Done (mk_HexBytes "ab0", 150000000000), mk_state sim w1 true,
        snd (fund (mk_state sim w0 true)))
  /\ format_eth_amount 150000000000 8 = Done "0.00000015"
  /\ sim_respond unit (time_sleep 1) w1 = (Returns tt, w1)
  /\ sweep (mk_state sim w1 true)
     = (Done (mk_HexBytes "ab1"), mk_state sim w2 true, snd (sweep (mk_state sim w1 true)))
  /\ sim_respond unit (time_sleep 1) w2 = (Returns tt, w2)
  /\ report (mk_state sim w2 true)
     = (Done tt, mk_state sim w2 true, snd (report (mk_state sim w2 true)))
  /\ fst (execute_transfer_cycle sim_from_key sim_checksum sim sim_respond
            (mk_state sim w0 true))
     = (Done tt, mk_state sim w2 true)
  /\ sends (snd (execute_transfer_cycle sim_from_key sim_checksum sim sim_respond
                   (mk_state sim w0 true)))
     = [Sign {| tx_to := holder; tx_value := 150000000000; tx_gas := 21000;
                tx_gasPrice := 1000000; tx_nonce := 0; tx_chainId := 10;
                tx_data := None |} private_key2;
        Io (eth_send_raw_transaction
              (Serialized
                 {| tx_to := holder; tx_value := 150000000000; tx_gas := 21000;
                    tx_gasPrice := 1000000; tx_nonce := 0; tx_chainId := 10;
                    tx_data := None |} private_key2))
           (Returns (mk_HexBytes "ab0"));
        Sign {| tx_to := token; tx_value := 0; tx_gas := 150000;
                tx_gasPrice := 1000000; tx_nonce := 1; tx_chainId := 10;
                tx_data := Some (mk_call token "transfer"
                                   [abi_address funder; abi_uint256 500]) |}
             private_key1;
        Io (eth_send_raw_transaction
              (Serialized
                 {| tx_to := token; tx_value := 0; tx_gas := 150000;
                    tx_gasPrice := 1000000; tx_nonce := 1; tx_chainId := 10;
                    tx_data := Some (mk_call token "transfer"
                                       [abi_address funder; abi_uint256 500]) |}
                 private_key1))
           (Returns (mk_HexBytes "ab1"))].
Proof.
  intros w0 w1 w2 report fund sweep holder funder token.
  assert (H1 : report (mk_state sim w0 true)
               = (Done tt, mk_state sim w0 true, snd (report (mk_state sim w0 true))))
    by (vm_compute; reflexivity).
  assert (H2 : sim_respond Z (call_balanceOf token holder) w0 = (Returns 500, w0))
    by reflexivity.
  assert (H3 : 0 < 500) by reflexivity.
  assert (H4 : fund (mk_state sim w0 true)
               = (Done (mk_HexBytes "ab0", 150000000000), mk_state sim w1 true,
                  snd (fund (mk_state sim w0 true))))
    by (vm_compute; reflexivity).
  assert (H5 : format_eth_amount 150000000000 8 = Done "0.00000015")
    by (vm_compute; reflexivity).
  assert (H6 : sim_respond unit (time_sleep 1) w1 = (Returns tt, w1)) by reflexivity.
  assert (H7 : sweep (mk_state sim w1 true)
               = (Done (mk_HexBytes "ab1"), mk_state sim w2 true,
                  snd (sweep (mk_state sim w1 true))))
    by (vm_compute; reflexivity).
  assert (H8 : sim_respond unit (time_sleep 1) w2 = (Returns tt, w2)) by reflexivity.
  assert (H9 : report (mk_state sim w2 true)
               = (Done tt, mk_state sim w2 true, snd (report (mk_state sim w2 true))))
    by (vm_compute; reflexivity).
  repeat (split; [assumption |]).
  rewrite (cycle_order sim_from_key sim_checksum sim sim_respond
             _ _ _ _ _ _ _ _ _ _ _ _ _ _ _ _ _ H1 H2 H3 H4 H5 H6 H7 H8 H9).
  split; [reflexivity | vm_compute; reflexivity].
Defined.

(** C10 on a node whose Holder's balance is 500 at the report and at the
    guard, and 0 when [transfer_all_tokens] reads it. *)
Lemma sweep_uses_own_read_witness :
  let w0 := mk_sim (Returns 1000000) (10 ^ 18) [500; 500; 0] 0 in
  let w1 := mk_sim (Returns 1000000) (10 ^ 18) [500; 0] 0 in
  let w2 := mk_sim (Returns 1000000) (10 ^ 18) [0] 0 in
  let w3 := mk_sim (Returns 1000000) (10 ^ 18) [0] 1 in
  let report := print_balance_info sim_from_key sim_checksum sim sim_respond in
  let fund := send_gas_fee sim_from_key sim_checksum sim sim_respond in
  let holder := address1 sim_from_key sim_checksum in
  let token := TOKEN_ADDRESS sim_checksum in
  report (mk_state sim w0 true)
  = (Done tt, mk_state sim w1 true, snd (report (mk_state sim w0 true)))
  /\ sim_respond Z (call_balanceOf token holder) w1 = (Returns 500, w2)
  /\ 0 < 500
  /\ fund (mk_state sim w2 true)
     = (Done (mk_HexBytes "ab0", 150000000000), mk_state sim w3 true,
        snd (fund (mk_state sim w2 true)))
  /\ format_eth_amount 150000000000 8 = Done "0.00000015"
  /\ sim_respond unit (time_sleep 1) w3 = (Returns tt, w3)
  /\ sim_respond Z (call_balanceOf token holder) w3 = (Returns 0, w3)
  /\ execute_transfer_cycle sim_from_key sim_checksum sim sim_respond
       (mk_state sim w0 true)
     = (Done tt, mk_state sim w3 true,
        (cycle_heading ++ snd (report (mk_state sim w0 true))
         ++ funding_events sim_from_key sim_checksum 500
              (snd (fund (mk_state sim w2 true))) (mk_HexBytes "ab0") "0.00000015"
         ++ [Io (call_balanceOf token holder) (Returns 0);
             Out ((nl ++ glyph_cross ++ " ERROR: "
                   ++ "Saldo token kosong, tidak ada yang bisa ditransfer") ++ nl)])%list).
Proof.
  intros w0 w1 w2 w3 report fund holder token.
  assert (H1 : report (mk_state sim w0 true)
               = (Done tt, mk_state sim w1 true, snd (report (mk_state sim w0 true))))
    by (vm_compute; reflexivity).
  assert (H2 : sim_respond Z (call_balanceOf token holder) w1 = (Returns 500, w2))
    by reflexivity.
  assert (H3 : 0 < 500) by reflexivity.
  assert (H4 : fund (mk_state sim w2 true)
               = (Done (mk_HexBytes "ab0", 150000000000), mk_state sim w3 true,
                  snd (fund (mk_state sim w2 true))))
    by (vm_compute; reflexivity).
  assert (H5 : format_eth_amount 150000000000 8 = Done "0.00000015")
    by (vm_compute; reflexivity).
  assert (H6 : sim_respond unit (time_sleep 1) w3 = (Returns tt, w3)) by reflexivity.
  assert (H7 : sim_respond Z (call_balanceOf token holder) w3 = (Returns 0, w3))
    by reflexivity.
  repeat (split; [assumption |]).
  exact (proj2 (proj2 (proj2
           (sweep_uses_own_read sim_from_key sim_checksum sim sim_respond)))
           _ _ _ _ _ _ _ _ _ _ _ _ H1 H2 H3 H4 H5 H6 H7).
Defined.



(** X4 on a node whose Holder has 5 token units and whose Funder has no
    native balance. *)
Lemma cycle_with_insufficient_funds_witness :
  let w := mk_sim (Returns 1000000) 0 [5] 0 in
  let report := print_balance_info sim_from_key sim_checksum sim sim_respond in
  let cycle := execute_transfer_cycle sim_from_key sim_checksum sim sim_respond in
  report (mk_state sim w true)
  = (Done tt, mk_state sim w true, snd (report (mk_state sim w true)))
  /\ sim_respond Z
       (call_balanceOf (TOKEN_ADDRESS sim_checksum) (address1 sim_from_key sim_checksum)) w
     = (Returns 5, w)
  /\ 0 < 5
  /\ sim_respond Z eth_gas_price w = (Returns 1000000, w)
  /\ sim_respond Z (eth_get_balance (address2 sim_from_key sim_checksum)) w = (Returns 0, w)
  /\ 0 <= 0 < 150000 * 1000000
  /\ 150000 * 1000000 < 2 ^ 256
  /\ fst (cycle (mk_state sim w true)) = (Done tt, mk_state sim w true)
  /\ sends (snd (cycle (mk_state sim w true))) = [].
Proof.
  intros w report cycle.
  assert (H1 : report (mk_state sim w true)
               = (Done tt, mk_state sim w true, snd (report (mk_state sim w true))))
    by (vm_compute; reflexivity).
  assert (H2 : sim_respond Z
                 (call_balanceOf (TOKEN_ADDRESS sim_checksum)
                    (address1 sim_from_key sim_checksum)) w
               = (Returns 5, w)) by reflexivity.
  assert (H3 : 0 < 5) by reflexivity.
  assert (H4 : sim_respond Z eth_gas_price w = (Returns 1000000, w)) by reflexivity.
  assert (H5 : sim_respond Z (eth_get_balance (address2 sim_from_key sim_checksum)) w
               = (Returns 0, w)) by reflexivity.
  assert (H6 : 0 <= 0 < 150000 * 1000000) by (split; [discriminate | reflexivity]).
  assert (H7 : 150000 * 1000000 < 2 ^ 256) by reflexivity.
  repeat (split; [assumption |]).
  destruct (cycle_with_insufficient_funds sim_from_key sim_checksum sim sim_respond
              _ _ _ _ _ _ _ _ _ H1 H2 H3 H4 H5 H6 H7)
    as (deposit & total & current & _ & _ & _ & Hrun & Hsends).
  split; [| exact Hsends].
  unfold cycle. rewrite Hrun. reflexivity.
Defined.

(** X6 on a node where CTRL+C arrives during the first gas price request. *)
Lemma interrupt_ends_the_run_witness :
  let st := mk_state sim (mk_sim Sigint (10 ^ 18) [500] 0) true in
  running sim st = true
  /\ fst (fst (main sim_from_key sim_checksum sim sim_respond 3 st)) = Exited 0
  /\ match main sim_from_key sim_checksum sim sim_respond 3 st with
     | (Exited code, st1, t) =>
         code = 0 /\ running sim st1 = false
         /\ exists t', t = (t' ++ [Out (stop_line ++ nl)])%list
     | (_, st1, _) => running sim st1 = true
     end.
Proof.
  intros st.
  split; [reflexivity |]. split; [vm_compute; reflexivity |].
  exact (interrupt_ends_the_run sim_from_key sim_checksum sim sim_respond 3 st eq_refl).
Defined.

(** X5 on two iterations against a node that answers every request. *)
Lemma loop_never_exits_by_its_condition_witness :
  let st := mk_state sim (mk_sim (Returns 1000000) (10 ^ 18) [500] 0) true in
  running sim st = true
  /\ match main sim_from_key sim_checksum sim sim_respond 2 st with
     | (Done (Some _), _, _) => False
     | (Done None, st1, _) => running sim st1 = true
     | (Raised e, _, t) =>
         exists t',
           t = (t' ++ [Out ("  Siklus berikutnya dalam 1 detik..." ++ cr);
                       Io (time_sleep 1) (Throws e)])%list
     | (Exited code, _, _) => code = 0
     end.
Proof.
  intros st. split; [reflexivity |].
  exact (loop_never_exits_by_its_condition sim_from_key sim_checksum sim sim_respond
           2 st eq_refl).
Defined.

(** X8 on one and a half tokens. *)
Lemma amounts_of_eight_places_are_exact_witness :
  0 <= 150000000 < 2 ^ 52
  /\ format_token_amount (150000000 * 10 ^ 10) 8 = Done "1.50000000"
  /\ format_eth_amount (150000000 * 10 ^ 10) 8 = Done "1.50000000".
Proof.
  assert (H : 0 <= 150000000 < 2 ^ 52) by (split; [discriminate | reflexivity]).
  split; [exact H |].
  destruct (amounts_of_eight_places_are_exact 150000000 H) as [Htoken Heth].
  rewrite Htoken, Heth. split; vm_compute; reflexivity.
Defined.

(** X9 on a node whose Holder has 500 token units and whose Funder holds
    one whole unit of native currency. *)
Lemma print_balance_info_reports_witness :
  let w := mk_sim (Returns 1000000) (10 ^ 18) [500] 0 in
  let holder := address1 sim_from_key sim_checksum in
  let funder := address2 sim_from_key sim_checksum in
  let token := TOKEN_ADDRESS sim_checksum in
  sim_respond string (call_symbol token) w = (Returns "TKN", w)
  /\ sim_respond Z (call_balanceOf token holder) w = (Returns 500, w)
  /\ sim_respond Z (call_balanceOf token funder) w = (Returns 0, w)
  /\ sim_respond Z (eth_get_balance holder) w = (Returns 0, w)
  /\ sim_respond Z (eth_get_balance funder) w = (Returns (10 ^ 18), w)
  /\ 0 <= 500 < 2 ^ 256 /\ 0 <= 0 < 2 ^ 256
  /\ 0 <= 0 < 2 ^ 256 /\ 0 <= 10 ^ 18 < 2 ^ 256
  /\ print_balance_info sim_from_key sim_checksum sim sim_respond (mk_state sim w true)
     = (Done tt, mk_state sim w true,
        [Io (call_symbol token) (Returns "TKN");
         Io (call_balanceOf token holder) (Returns 500);
         Io (call_balanceOf token funder) (Returns 0);
         Io (eth_get_balance holder) (Returns 0);
         Io (eth_get_balance funder) (Returns (10 ^ 18));
         Out ((nl ++ banner) ++ nl);
         Out (center "TOKEN BALANCE" 50 ++ nl);
         Out (banner ++ nl);
         Out ("Token Symbol: TKN" ++ nl);
         Out (("Address1 [" ++ holder ++ "]:") ++ nl);
         Out (("  " ++ glyph_bullet ++ " Token: 0 TKN") ++ nl);
         Out (("  " ++ glyph_bullet ++ " ETH:   0 ETH") ++ nl);
         Out (("Address2 [" ++ funder ++ "]:") ++ nl);
         Out (("  " ++ glyph_bullet ++ " Token: 0 TKN") ++ nl);
         Out (("  " ++ glyph_bullet ++ " ETH:   1 ETH") ++ nl);
         Out ((banner ++ nl) ++ nl)]).
Proof.
  intros w holder funder token.
  assert (R1 : 0 <= 500 < 2 ^ 256) by (split; [discriminate | reflexivity]).
  assert (R2 : 0 <= 0 < 2 ^ 256) by (split; [discriminate | reflexivity]).
  assert (R3 : 0 <= 10 ^ 18 < 2 ^ 256) by (split; [discriminate | reflexivity]).
  repeat (split; [first [reflexivity | assumption] |]).
  destruct (print_balance_info_reports sim_from_key sim_checksum sim sim_respond
              (mk_state sim w true) "TKN" 500 0 0 (10 ^ 18) w w w w w
              eq_refl eq_refl eq_refl eq_refl eq_refl R1 R2 R2 R3)
    as (token1 & eth1 & token2 & eth2 & F1 & F2 & F3 & F4 & Hrun).
  rewrite Hrun.
  assert (E1 : token1 = "0") by (vm_compute in F1; congruence).
  assert (E2 : eth1 = "0") by (vm_compute in F2; congruence).
  assert (E3 : token2 = "0") by (vm_compute in F3; congruence).
  assert (E4 : eth2 = "1") by (vm_compute in F4; congruence).
  rewrite E1, E2, E3, E4. reflexivity.
Defined.


(** C8 as first stated, on a positive Holder balance and a sufficient
    Funder balance alone, fails: on a node whose Holder balance is 500 at
    the report and at the guard and 0 when [transfer_all_tokens] reads
    it, the Funder holding one whole unit, the cycle sends the funding
    only, and ends with the empty-balance error instead of the second
    wait and the second report. *)
Lemma cycle_order_needs_the_sweep_to_return :
  let w0 := mk_sim (Returns 1000000) (10 ^ 18) [500; 500; 0] 0 in
  let w1 := mk_sim (Returns 1000000) (10 ^ 18) [500; 0] 0 in
  let w2 := mk_sim (Returns 1000000) (10 ^ 18) [0] 0 in
  let holder := address1 sim_from_key sim_checksum in
  let funder := address2 sim_from_key sim_checksum in
  let token := TOKEN_ADDRESS sim_checksum in
  let funding := mk_tx holder (150000 * 1000000) 21000 1000000 0 10 None in
  let cycle := execute_transfer_cycle sim_from_key sim_checksum sim sim_respond in
  snd (fst (print_balance_info sim_from_key sim_checksum sim sim_respond
              (mk_state sim w0 true)))
  = mk_state sim w1 true
  /\ sim_respond Z (call_balanceOf token holder) w1 = (Returns 500, w2)
  /\ sim_respond Z eth_gas_price w2 = (Returns 1000000, w2)
  /\ sim_respond Z (eth_get_balance funder) w2 = (Returns (10 ^ 18), w2)
  /\ 150000 * 1000000 <= 10 ^ 18
  /\ fst (fst (cycle (mk_state sim w0 true))) = Done tt
  /\ sends (snd (cycle (mk_state sim w0 true)))
     = [Sign funding private_key2;
        Io (eth_send_raw_transaction (Serialized funding private_key2))
           (Returns (mk_HexBytes "ab0"))]
  /\ filter (fun ev => match ev with
                       | Io op _ => match op with time_sleep _ => true | _ => false end
                       | _ => false
                       end)
       (snd (cycle (mk_state sim w0 true)))
     = [Io (time_sleep 1) (Returns tt)]
  /\ last (snd (cycle (mk_state sim w0 true))) (Out "")
     = Out ((nl ++ glyph_cross ++ " ERROR: "
             ++ "Saldo token kosong, tidak ada yang bisa ditransfer") ++ nl).
Proof.
  cbv zeta.
  repeat split; first [reflexivity | vm_compute; reflexivity | vm_compute; discriminate].
Qed.
